(** * The streaming-event client of frontend/app.js

    A shallow embedding of the chat front end: the server-sent-event
    reader of [runAgentStream], the paginated usage and history loaders
    and the navigation and submit handlers, with the properties of the
    design document stated against them.

    Conventions.
    - A JavaScript string is its sequence of UTF-16 code units ([jsstring]).
    - A byte chunk (Uint8Array) is a [list byte].
    - JavaScript numbers are modelled by [Z]: the page cursors, sizes and
      totals of the data model are integers, on which the double
      arithmetic of the source is exact below 2^53.  Division by zero,
      which gives an infinity in JavaScript, is written out ([xnum]).
    - The module-level [let] variables become the fields of [State];
      every function of the source that reads or writes them takes and
      returns the state.  An [await]ed promise that rejects, and a
      [throw], are the [Rejected] outcome.
    - [renderStats] and [renderHistory] write to the document only and
      are left out of the functions that call them.  They, and the
      other places that put a value in a text ([String(v)], a template,
      URLSearchParams, [new Error(v)]), convert it to a string, which
      throws a TypeError for an object with a key [toString] of its own,
      or an array that holds one.  The functions below are the code on
      values that convert ([printable]); [tidy_state], [tidy_answer]
      and [tidy_frame] say when every value that a turn shows is one,
      and are the hypotheses of the statements that follow the code
      through such a conversion.
    - Platform services are parameters: [JSON_parse] is JSON.parse, and
      [server] gives the answer of the network to each fetch, from the
      list of requests sent so far. *)

From Stdlib Require Import String Ascii.
From Stdlib Require Import List ZArith Lia Bool Arith.
From Stdlib.Strings Require Import Byte.
From Equations Require Import Equations.
Import ListNotations.

Set Implicit Arguments.
Set Warnings "-register-all".
Local Open Scope Z_scope.

(** ** JavaScript strings *)

Definition jsstring := list Z.

Definition str (s : string) : jsstring :=
  map (fun a => Z.of_nat (nat_of_ascii a)) (list_ascii_of_string s).

Definition LF : Z := 10.

(** [a === b] on strings *)
Fixpoint eqb_str (a b : jsstring) : bool :=
  match a, b with
  | [], [] => true
  | x :: a', y :: b' => (x =? y) && eqb_str a' b'
  | _, _ => false
  end.

(** [s.startsWith(p)] *)
Fixpoint startsWith (s p : jsstring) {struct p} : bool :=
  match p, s with
  | [], _ => true
  | _ :: _, [] => false
  | c :: p', d :: s' => (c =? d) && startsWith s' p'
  end.

(** [s.indexOf(p)], [None] for -1 *)
Fixpoint indexOf (s p : jsstring) : option nat :=
  if startsWith s p then Some 0%nat
  else match s with
       | [] => None
       | _ :: s' => option_map S (indexOf s' p)
       end.

(** [s.includes(p)] *)
Definition includes (s p : jsstring) : bool :=
  match indexOf s p with Some _ => true | None => false end.

(** [s.slice(0, i)] and [s.slice(i)] for an index within the string *)
Definition slice_to (i : nat) (s : jsstring) : jsstring := firstn i s.
Definition slice_from (i : nat) (s : jsstring) : jsstring := skipn i s.

(** [s.split(c)] for a one-character separator; never the empty list *)
Fixpoint split (c : Z) (s : jsstring) : list jsstring :=
  match s with
  | [] => [[]]
  | d :: s' =>
      if d =? c then [] :: split c s'
      else match split c s' with
           | [] => [[d]]
           | l :: ls => (d :: l) :: ls
           end
  end.

(** White space and line terminators of ECMAScript, as removed by
    [String.prototype.trim]. *)
Definition is_space (c : Z) : bool :=
  (c =? 9) || (c =? 10) || (c =? 11) || (c =? 12) || (c =? 13) || (c =? 32)
  || (c =? 160) || (c =? 5760) || ((8192 <=? c) && (c <=? 8202))
  || (c =? 8232) || (c =? 8233) || (c =? 8239) || (c =? 8287)
  || (c =? 12288) || (c =? 65279).

Fixpoint trimStart (s : jsstring) : jsstring :=
  match s with
  | c :: s' => if is_space c then trimStart s' else s
  | [] => []
  end.

Definition trimEnd (s : jsstring) : jsstring := rev (trimStart (rev s)).

Definition trim (s : jsstring) : jsstring := trimEnd (trimStart s).

(** [s.toLowerCase()] on the code units of a header value (a byte
    string): the ASCII and Latin-1 capitals. *)
Definition lower_unit (c : Z) : Z :=
  if ((65 <=? c) && (c <=? 90))
     || ((192 <=? c) && (c <=? 222) && negb (c =? 215))
  then c + 32 else c.

Definition toLowerCase (s : jsstring) : jsstring := map lower_unit s.

(** The integers that a double holds exactly and that [String(n)]
    prints digit by digit. *)
Definition safe_integer (n : Z) : bool := Z.abs n <? 9007199254740992.

(** Decimal digits of a number, as [String(n)] prints an integer
    below 2^53. *)
Fixpoint digits_of_uint (d : Decimal.uint) : jsstring :=
  match d with
  | Decimal.Nil => []
  | Decimal.D0 d => 48 :: digits_of_uint d
  | Decimal.D1 d => 49 :: digits_of_uint d
  | Decimal.D2 d => 50 :: digits_of_uint d
  | Decimal.D3 d => 51 :: digits_of_uint d
  | Decimal.D4 d => 52 :: digits_of_uint d
  | Decimal.D5 d => 53 :: digits_of_uint d
  | Decimal.D6 d => 54 :: digits_of_uint d
  | Decimal.D7 d => 55 :: digits_of_uint d
  | Decimal.D8 d => 56 :: digits_of_uint d
  | Decimal.D9 d => 57 :: digits_of_uint d
  end.

Definition String_of_number (n : Z) : jsstring :=
  match n with
  | Z0 => str "0"
  | Zpos p => digits_of_uint (Pos.to_uint p)
  | Zneg p => str "-" ++ digits_of_uint (Pos.to_uint p)
  end.

(** ** JSON values *)

Inductive JSON : Type :=
| JNull
| JBool (b : bool)
| JNum (n : Z)
| JStr (s : jsstring)
| JArr (l : list JSON)
| JObj (l : list (jsstring * JSON)).

(** ToBoolean *)
Definition truthy (v : JSON) : bool :=
  match v with
  | JNull => false
  | JBool b => b
  | JNum n => negb (n =? 0)
  | JStr s => match s with [] => false | _ => true end
  | JArr _ | JObj _ => true
  end.

(** The result of [data?.k] is [None] for [undefined]. *)
Definition truthy_opt (v : option JSON) : bool :=
  match v with Some v => truthy v | None => false end.

Fixpoint assoc_last (k : jsstring) (l : list (jsstring * JSON)) : option JSON :=
  match l with
  | [] => None
  | (k', v) :: l' =>
      match assoc_last k l' with
      | Some w => Some w
      | None => if eqb_str k k' then Some v else None
      end
  end.

(** [data?.k] for a key that no prototype defines: an own property of
    an object (the last of duplicate keys, as JSON.parse keeps it),
    [undefined] on anything else. *)
Definition get (data : JSON) (k : jsstring) : option JSON :=
  match data with
  | JObj l => assoc_last k l
  | _ => None
  end.

Fixpoint join (sep : jsstring) (l : list jsstring) : jsstring :=
  match l with
  | [] => []
  | [s] => s
  | s :: l' => s ++ sep ++ join sep l'
  end.

(** [String(v)], for a value that it converts (see [printable]). *)
Fixpoint String_ (v : JSON) : jsstring :=
  match v with
  | JNull => str "null"
  | JBool true => str "true"
  | JBool false => str "false"
  | JNum n => String_of_number n
  | JStr s => s
  | JArr l =>
      join (str ",")
        (map (fun e => match e with JNull => [] | _ => String_ e end) l)
  | JObj _ => str "[object Object]"
  end.

(** The values that [String(v)] converts, to [String_ v]: a primitive
    whose number is a safe integer, an object without a key [toString]
    of its own (with one, which JSON cannot make a function, the
    conversion finds nothing to call and throws a TypeError), an array
    of such values. *)
Fixpoint printable (v : JSON) : bool :=
  match v with
  | JNull | JBool _ | JStr _ => true
  | JNum n => safe_integer n
  | JArr l => forallb printable l
  | JObj l =>
      match assoc_last (str "toString") l with
      | Some _ => false
      | None => true
      end
  end.

(** ** TextDecoder('utf-8'), used with [{ stream: true }]

    The decoder of the Encoding Standard.  It keeps, between two calls
    of [decode], the bytes of a code point that a chunk left unfinished
    and whether the byte order mark was already looked for.  A byte that
    cannot continue the sequence read so far gives U+FFFD and is read
    again as the first byte of a sequence. *)

Record TextDecoder : Type := {
  code_point : Z;
  bytes_seen : Z;
  bytes_needed : Z;
  lower_boundary : Z;
  upper_boundary : Z;
  BOM_seen : bool
}.

Definition new_TextDecoder : TextDecoder :=
  {| code_point := 0; bytes_seen := 0; bytes_needed := 0;
     lower_boundary := 128; upper_boundary := 191; BOM_seen := false |}.

Definition REPLACEMENT : Z := 65533.

Definition reset_sequence (d : TextDecoder) : TextDecoder :=
  {| code_point := 0; bytes_seen := 0; bytes_needed := 0;
     lower_boundary := 128; upper_boundary := 191; BOM_seen := BOM_seen d |}.

(** A first byte: the decoder holds no unfinished sequence. *)
Definition lead_byte (d : TextDecoder) (b : Z) : TextDecoder * list Z :=
  if b <=? 127 then (d, [b])
  else if (194 <=? b) && (b <=? 223) then
    ({| code_point := Z.land b 31; bytes_seen := 0; bytes_needed := 1;
        lower_boundary := 128; upper_boundary := 191;
        BOM_seen := BOM_seen d |}, [])
  else if (224 <=? b) && (b <=? 239) then
    ({| code_point := Z.land b 15; bytes_seen := 0; bytes_needed := 2;
        lower_boundary := if b =? 224 then 160 else 128;
        upper_boundary := if b =? 237 then 159 else 191;
        BOM_seen := BOM_seen d |}, [])
  else if (240 <=? b) && (b <=? 244) then
    ({| code_point := Z.land b 7; bytes_seen := 0; bytes_needed := 3;
        lower_boundary := if b =? 240 then 144 else 128;
        upper_boundary := if b =? 244 then 143 else 191;
        BOM_seen := BOM_seen d |}, [])
  else (d, [REPLACEMENT]).

(** One byte through the UTF-8 decoder: the new state and the scalar
    values it gives. *)
Definition utf8_byte (d : TextDecoder) (b : Z) : TextDecoder * list Z :=
  if bytes_needed d =? 0 then lead_byte d b
  else if negb ((lower_boundary d <=? b) && (b <=? upper_boundary d)) then
    let (d', out) := lead_byte (reset_sequence d) b in
    (d', REPLACEMENT :: out)
  else
    let cp := Z.lor (Z.shiftl (code_point d) 6) (Z.land b 63) in
    let seen := bytes_seen d + 1 in
    if seen =? bytes_needed d then (reset_sequence d, [cp])
    else
      ({| code_point := cp; bytes_seen := seen;
          bytes_needed := bytes_needed d;
          lower_boundary := 128; upper_boundary := 191;
          BOM_seen := BOM_seen d |}, []).

(** The first scalar value of the whole stream is dropped when it is
    the byte order mark. *)
Definition emit_scalar (bom_seen : bool) (c : Z) : list Z :=
  if negb bom_seen && (c =? 65279) then [] else [c].

Fixpoint emit_scalars (bom_seen : bool) (cs : list Z) : bool * list Z :=
  match cs with
  | [] => (bom_seen, [])
  | c :: cs' =>
      let (b', out) := emit_scalars true cs' in
      (b', emit_scalar bom_seen c ++ out)
  end.

(** A scalar value as UTF-16 code units *)
Definition utf16 (c : Z) : jsstring :=
  if c <? 65536 then [c]
  else [55296 + Z.shiftr (c - 65536) 10; 56320 + Z.land (c - 65536) 1023].

Definition byte_value (b : byte) : Z := Z.of_N (Byte.to_N b).

Definition decode_byte (d : TextDecoder) (b : byte) : TextDecoder * jsstring :=
  let (d1, scalars) := utf8_byte d (byte_value b) in
  let (bom, out) := emit_scalars (BOM_seen d1) scalars in
  ({| code_point := code_point d1; bytes_seen := bytes_seen d1;
      bytes_needed := bytes_needed d1;
      lower_boundary := lower_boundary d1;
      upper_boundary := upper_boundary d1; BOM_seen := bom |},
   flat_map utf16 out).

(** [decoder.decode(value, { stream: true })] *)
Fixpoint decode (d : TextDecoder) (value : list byte) : TextDecoder * jsstring :=
  match value with
  | [] => (d, [])
  | b :: value' =>
      let (d1, s1) := decode_byte d b in
      let (d2, s2) := decode d1 value' in
      (d2, s1 ++ s2)
  end.

(** ** A JSON reader for closed examples

    [JSON_parse] is a parameter of the development.  The examples need an
    actual reader: [json_parse] reads the JSON grammar of ECMA-404 in
    which numbers are written as integers (a fraction, an exponent, a
    negative zero or an integer from 2^53 is outside the numbers
    modelled here and is refused). *)

Definition is_json_ws (c : Z) : bool :=
  (c =? 32) || (c =? 9) || (c =? 10) || (c =? 13).

Fixpoint skip_ws (s : jsstring) : jsstring :=
  match s with
  | c :: s' => if is_json_ws c then skip_ws s' else s
  | [] => []
  end.

Definition hex_digit (c : Z) : option Z :=
  if (48 <=? c) && (c <=? 57) then Some (c - 48)
  else if (65 <=? c) && (c <=? 70) then Some (c - 55)
  else if (97 <=? c) && (c <=? 102) then Some (c - 87)
  else None.

Definition hex4 (a b c d : Z) : option Z :=
  match hex_digit a, hex_digit b, hex_digit c, hex_digit d with
  | Some x, Some y, Some z, Some w => Some (((x * 16 + y) * 16 + z) * 16 + w)
  | _, _, _, _ => None
  end.

Definition simple_escape (e : Z) : option Z :=
  if e =? 34 then Some 34          (* quote *)
  else if e =? 92 then Some 92     (* backslash *)
  else if e =? 47 then Some 47     (* slash *)
  else if e =? 98 then Some 8      (* b: backspace *)
  else if e =? 102 then Some 12    (* f: form feed *)
  else if e =? 110 then Some 10    (* n: line feed *)
  else if e =? 114 then Some 13    (* r: carriage return *)
  else if e =? 116 then Some 9     (* t: tab *)
  else None.

(** The characters of a string after its opening quote, and what
    follows the closing quote. *)
Fixpoint string_chars (s : jsstring) : option (jsstring * jsstring) :=
  match s with
  | [] => None
  | c :: s' =>
      if c =? 34 then Some ([], s')
      else if c <? 32 then None
      else if c =? 92 then
        match s' with
        | [] => None
        | e :: s'' =>
            if e =? 117 then
              match s'' with
              | h1 :: h2 :: h3 :: h4 :: s3 =>
                  match hex4 h1 h2 h3 h4, string_chars s3 with
                  | Some u, Some (cs, r) => Some (u :: cs, r)
                  | _, _ => None
                  end
              | _ => None
              end
            else
              match simple_escape e, string_chars s'' with
              | Some u, Some (cs, r) => Some (u :: cs, r)
              | _, _ => None
              end
        end
      else
        match string_chars s' with
        | Some (cs, r) => Some (c :: cs, r)
        | None => None
        end
  end.

Definition is_digit (c : Z) : bool := (48 <=? c) && (c <=? 57).

Fixpoint read_digits (acc : Z) (s : jsstring) : Z * jsstring :=
  match s with
  | c :: s' => if is_digit c then read_digits (acc * 10 + (c - 48)) s'
               else (acc, s)
  | [] => (acc, [])
  end.

Definition after_integer (r : jsstring) : bool :=
  match r with
  | c :: _ => negb ((c =? 46) || (c =? 101) || (c =? 69))
  | [] => true
  end.

(** [0] or a sequence of digits that does not start with [0] *)
Definition read_natural (s : jsstring) : option (Z * jsstring) :=
  match s with
  | c :: s' =>
      if c =? 48 then if after_integer s' then Some (0, s') else None
      else if is_digit c then
        let (n, r) := read_digits 0 s in
        if after_integer r then Some (n, r) else None
      else None
  | [] => None
  end.

Definition read_number (s : jsstring) : option (JSON * jsstring) :=
  match s with
  | c :: s' =>
      if c =? 45 then
        match read_natural s' with
        | Some (n, r) =>
            if (0 <? n) && safe_integer n then Some (JNum (- n), r) else None
        | None => None
        end
      else
        match read_natural s with
        | Some (n, r) => if safe_integer n then Some (JNum n, r) else None
        | None => None
        end
  | [] => None
  end.

Definition read_literal (s : jsstring) : option (JSON * jsstring) :=
  if startsWith s (str "true") then Some (JBool true, skipn 4 s)
  else if startsWith s (str "false") then Some (JBool false, skipn 5 s)
  else if startsWith s (str "null") then Some (JNull, skipn 4 s)
  else read_number s.

Fixpoint read_value (fuel : nat) (s : jsstring) {struct fuel}
  : option (JSON * jsstring) :=
  match fuel with
  | O => None
  | S fuel' =>
      match skip_ws s with
      | [] => None
      | c :: rest =>
          if c =? 123 then
            match skip_ws rest with
            | d :: r => if d =? 125 then Some (JObj [], r)
                        else read_members fuel' rest []
            | [] => None
            end
          else if c =? 91 then
            match skip_ws rest with
            | d :: r => if d =? 93 then Some (JArr [], r)
                        else read_elements fuel' rest []
            | [] => None
            end
          else if c =? 34 then
            match string_chars rest with
            | Some (cs, r) => Some (JStr cs, r)
            | None => None
            end
          else read_literal (c :: rest)
      end
  end

with read_elements (fuel : nat) (s : jsstring) (acc : list JSON) {struct fuel}
  : option (JSON * jsstring) :=
  match fuel with
  | O => None
  | S fuel' =>
      match read_value fuel' s with
      | None => None
      | Some (v, r) =>
          match skip_ws r with
          | d :: r' =>
              if d =? 44 then read_elements fuel' r' (acc ++ [v])
              else if d =? 93 then Some (JArr (acc ++ [v]), r')
              else None
          | [] => None
          end
      end
  end

with read_members (fuel : nat) (s : jsstring) (acc : list (jsstring * JSON))
  {struct fuel} : option (JSON * jsstring) :=
  match fuel with
  | O => None
  | S fuel' =>
      match skip_ws s with
      | q :: r0 =>
          if q =? 34 then
            match string_chars r0 with
            | None => None
            | Some (k, r1) =>
                match skip_ws r1 with
                | colon :: r2 =>
                    if colon =? 58 then
                      match read_value fuel' r2 with
                      | None => None
                      | Some (v, r3) =>
                          match skip_ws r3 with
                          | d :: r4 =>
                              if d =? 44 then
                                read_members fuel' r4 (acc ++ [(k, v)])
                              else if d =? 125 then
                                Some (JObj (acc ++ [(k, v)]), r4)
                              else None
                          | [] => None
                          end
                      end
                    else None
                | [] => None
                end
            end
          else None
      | [] => None
      end
  end.

Definition json_parse (text : jsstring) : option JSON :=
  match read_value (2 * length text + 2) text with
  | Some (v, r) => match skip_ws r with [] => Some v | _ :: _ => None end
  | None => None
  end.

(** Streams and bodies of the examples are written as Rocq strings in
    which ['] stands for the double quote and [|] for the line feed. *)
Definition wire_char (a : ascii) : ascii :=
  if Ascii.eqb a "'"%char then ascii_of_nat 34
  else if Ascii.eqb a "|"%char then ascii_of_nat 10
  else a.

Definition wire (s : string) : list byte :=
  map byte_of_ascii (map wire_char (list_ascii_of_string s)).

Definition text (s : string) : jsstring :=
  map (fun a => Z.of_nat (nat_of_ascii (wire_char a))) (list_ascii_of_string s).

(** ** The state of the page *)

Inductive View : Type := ViewChat | ViewKnowledge | ViewStats | ViewEnv.

(** One paginated collection: [usagePage], [usagePageSize], [usageTotal]
    and [usageItems], or the four [history...] variables. *)
Record Collection : Type := {
  page : Z;
  page_size : Z;
  total : Z;
  items : list JSON
}.

Inductive Request : Type :=
| GetUsage (conversation_id : jsstring) (page page_size : Z)
| GetHistory (page page_size : Z)
| PostStream (message : jsstring) (conversation_id : option JSON).

Inductive Role : Type := user | assistant.

Record State : Type := {
  conversationId : JSON;            (* [JNull] when absent *)
  usage : Collection;
  history : Collection;
  activeView : View;                (* the view that is not hidden *)
  localStorage : option jsstring;   (* item STORAGE_CONVERSATION_KEY *)
  storageFails : bool;              (* localStorage throws on access *)
  requests : list Request;          (* fetches sent, oldest first *)
  messages : list (Role * jsstring) (* the bubbles of messagesEl *)
}.

Definition usagePage (st : State) : Z := page (usage st).
Definition usagePageSize (st : State) : Z := page_size (usage st).
Definition usageTotal (st : State) : Z := total (usage st).
Definition usageItems (st : State) : list JSON := items (usage st).
Definition historyPage (st : State) : Z := page (history st).
Definition historyPageSize (st : State) : Z := page_size (history st).
Definition historyTotal (st : State) : Z := total (history st).
Definition historyItems (st : State) : list JSON := items (history st).

Definition set_conversationId (v : JSON) (st : State) : State :=
  {| conversationId := v; usage := usage st; history := history st;
     activeView := activeView st; localStorage := localStorage st;
     storageFails := storageFails st; requests := requests st;
     messages := messages st |}.

Definition set_usage (c : Collection) (st : State) : State :=
  {| conversationId := conversationId st; usage := c; history := history st;
     activeView := activeView st; localStorage := localStorage st;
     storageFails := storageFails st; requests := requests st;
     messages := messages st |}.

Definition set_history (c : Collection) (st : State) : State :=
  {| conversationId := conversationId st; usage := usage st; history := c;
     activeView := activeView st; localStorage := localStorage st;
     storageFails := storageFails st; requests := requests st;
     messages := messages st |}.

Definition set_localStorage (v : option jsstring) (st : State) : State :=
  {| conversationId := conversationId st; usage := usage st;
     history := history st; activeView := activeView st; localStorage := v;
     storageFails := storageFails st; requests := requests st;
     messages := messages st |}.

Definition set_requests (l : list Request) (st : State) : State :=
  {| conversationId := conversationId st; usage := usage st;
     history := history st; activeView := activeView st;
     localStorage := localStorage st; storageFails := storageFails st;
     requests := l; messages := messages st |}.

Definition set_messages (l : list (Role * jsstring)) (st : State) : State :=
  {| conversationId := conversationId st; usage := usage st;
     history := history st; activeView := activeView st;
     localStorage := localStorage st; storageFails := storageFails st;
     requests := requests st; messages := l |}.

Definition set_usagePage (n : Z) (st : State) : State :=
  set_usage {| page := n; page_size := usagePageSize st;
               total := usageTotal st; items := usageItems st |} st.

(** The state with which the script starts, before the stored
    conversation id is read back. *)
Definition initial_state : State :=
  {| conversationId := JNull;
     usage := {| page := 1; page_size := 20; total := 0; items := [] |};
     history := {| page := 1; page_size := 10; total := 0; items := [] |};
     activeView := ViewChat; localStorage := None; storageFails := false;
     requests := []; messages := [] |}.

(** [setActiveView]: the three [hidden] flags follow the view. *)
Definition setActiveView (view : View) (st : State) : State :=
  {| conversationId := conversationId st; usage := usage st;
     history := history st; activeView := view;
     localStorage := localStorage st; storageFails := storageFails st;
     requests := requests st; messages := messages st |}.

(** [saveConversationId], for an id that [String] converts; for
    another one the [catch] is entered before anything is stored. *)
Definition saveConversationId (id : JSON) (st : State) : State :=
  if storageFails st then st
  else if truthy id && negb (eqb_str (trim (String_ id)) [])
  then set_localStorage (Some (String_ id)) st
  else st.

(** [loadStoredConversationId] *)
Definition loadStoredConversationId (st : State) : JSON :=
  if storageFails st then JNull
  else match localStorage st with
       | Some value =>
           if truthy (JStr value) && truthy (JStr (trim value))
           then JStr value else JNull
       | None => JNull
       end.

(** The script run again when the page is loaded again, up to the
    point where the stored conversation id is taken up: the variables
    start afresh and the local storage is what it was.  The greeting
    bubble and the fetch of the agent information come after it. *)
Definition reload (st : State) : State :=
  let st0 :=
    {| conversationId := conversationId initial_state;
       usage := usage initial_state; history := history initial_state;
       activeView := ViewChat; localStorage := localStorage st;
       storageFails := storageFails st; requests := []; messages := [] |} in
  if truthy (loadStoredConversationId st0)
  then set_conversationId (loadStoredConversationId st0) st0
  else st0.

(** [statsViewActive], with the element of the view in the page *)
Definition statsViewActive (st : State) : bool :=
  match activeView st with ViewStats => true | _ => false end.

(** ** Page counts and navigation flags ([renderStats], [renderHistory]) *)

(** A number that may be the positive infinity of a division by zero. *)
Inductive xnum : Type := Fin (n : Z) | Infinity.

(** [Math.ceil(a / b)] for integers [a] and [b <> 0] *)
Definition ceil_div (a b : Z) : Z := - ((- a) / b).

(** [total ? Math.max(1, Math.ceil(total / pageSize)) : 1]; the zero
    of [Z] is the positive zero (a page size of -0, for which the
    division gives the negative infinity, is not a number of the
    model). *)
Definition totalPages (c : Collection) : xnum :=
  if total c =? 0 then Fin 1
  else if page_size c =? 0 then
    (if 0 <? total c then Infinity else Fin 1)
  else Fin (Z.max 1 (ceil_div (total c) (page_size c))).

(** [total ? page : 1] *)
Definition currentPage (c : Collection) : Z :=
  if total c =? 0 then 1 else page c.

(** [n >= x] *)
Definition geb_x (n : Z) (x : xnum) : bool :=
  match x with Fin m => m <=? n | Infinity => false end.

(** The page count as the design document defines it, for a page size
    that is not zero: [max(1, ceil(total / page_size))] for a total that
    is not zero, and 1 otherwise. *)
Definition page_count (c : Collection) : Z :=
  if total c =? 0 then 1 else Z.max 1 (ceil_div (total c) (page_size c)).

Definition prev_disabled (c : Collection) : bool := currentPage c <=? 1.
Definition next_disabled (c : Collection) : bool :=
  geb_x (currentPage c) (totalPages c).

(** ** Exceptions and outcomes *)

Inductive Exn : Type :=
| Error (message : jsstring)   (* [throw new Error(message)] *)
| NetworkError                 (* [fetch] or [reader.read] rejects *)
| BodyError.                   (* [res.json] rejects *)

Inductive Outcome : Type := Resolved | Rejected (e : Exn).

(** ** Responses *)

Record Body : Type := {
  chunks : list (list byte);  (* what [reader.read] gives, in order *)
  intact : bool               (* [false]: the transfer fails after them *)
}.

Record Response : Type := {
  status : Z;
  content_type : option jsstring;
  body : option Body
}.

Inductive Reply : Type := NoReply | Answer (res : Response).

Definition ok (res : Response) : bool :=
  (200 <=? status res) && (status res <=? 299).

(** The whole body as text, as [res.json] reads it before parsing. *)
Definition utf8_decode (bs : list byte) : jsstring :=
  let (d, s) := decode new_TextDecoder bs in
  if bytes_needed d =? 0 then s else s ++ [REPLACEMENT].

Definition body_text (res : Response) : option jsstring :=
  match body res with
  | None => Some []
  | Some b => if intact b then Some (utf8_decode (concat (chunks b)))
              else None
  end.

(** An event frame: the event name and the parsed payload. *)
Record Frame : Type := {
  name : jsstring;
  data : JSON
}.

(** What one turn of a loop body asks for: go on, or leave the function
    with its outcome. *)
Inductive Flow (W : Type) : Type :=
| Next (w : W)
| Stop (r : Outcome) (w : W).
Arguments Next {W} w.
Arguments Stop {W} r w.

(** The inner [while] loop ends either because the buffer holds no
    separator any more, or because a frame left the function. *)
Inductive Pumped (W : Type) : Type :=
| More (w : W) (buffer : jsstring)
| Finished (r : Outcome) (w : W).
Arguments More {W} w buffer.
Arguments Finished {W} r w.

Definition number_or (v : option JSON) (dflt : Z) : Z :=
  match v with Some (JNum n) => n | _ => dflt end.

Definition array_or_empty (v : option JSON) : list JSON :=
  match v with Some (JArr l) => l | _ => [] end.

(** The four assignments that end [loadUsagePage] and [loadHistoryPage]. *)
Definition page_of_response (data : JSON) (requested : Z) (c : Collection)
  : Collection :=
  {| page := number_or (get data (str "page")) requested;
     page_size := number_or (get data (str "page_size")) (page_size c);
     total := number_or (get data (str "total")) 0;
     items := array_or_empty (get data (str "items")) |}.

Definition SEP : jsstring := [LF; LF].

(** The [for] loop over the lines of a frame block *)
Definition parse_line (acc : jsstring * jsstring) (line : jsstring)
  : jsstring * jsstring :=
  let (eventName, dataJson) := acc in
  (if startsWith line (str "event:") then trim (slice_from 6 line)
   else eventName,
   if startsWith line (str "data:") then dataJson ++ trim (slice_from 5 line)
   else dataJson).

Definition parse_lines (chunk : jsstring) : jsstring * jsstring :=
  fold_left parse_line (split LF chunk) (str "message", []).

(** ** Facts on the string operations *)

Lemma startsWith_length (s p : jsstring) :
  startsWith s p = true -> (length p <= length s)%nat.
Proof.
  revert s; induction p as [|c p IH]; intros [|d s] H; simpl in *;
    try lia; try discriminate.
  apply andb_prop in H as [_ H]. apply IH in H. lia.
Defined.

Lemma indexOf_bound (s p : jsstring) (i : nat) :
  indexOf s p = Some i -> (i + length p <= length s)%nat.
Proof.
  revert i; induction s as [|c s IH]; intros i H.
  - cbn [indexOf] in H. destruct (startsWith [] p) eqn:E; [|discriminate].
    injection H as <-. apply startsWith_length in E. simpl in *. lia.
  - cbn [indexOf] in H. destruct (startsWith (c :: s) p) eqn:E.
    + injection H as <-. apply startsWith_length in E. lia.
    + destruct (indexOf s p) as [j|]; [|discriminate].
      injection H as <-. specialize (IH j eq_refl). simpl. lia.
Defined.

Section App.

(** JSON.parse: [None] when it throws. *)
Variable JSON_parse : jsstring -> option JSON.

(** The network: the answer to the last request of the list, given all
    the requests sent before it. *)
Variable server : list Request -> Reply.

(** [await fetch(...)] *)
Definition fetch (req : Request) (st : State) : Reply * State :=
  let st' := set_requests (requests st ++ [req]) st in
  (server (requests st'), st').

(** [await res.json()]: [None] when the promise rejects. *)
Definition json (res : Response) : option JSON :=
  match body_text res with
  | Some t => JSON_parse t
  | None => None
  end.

Definition HTTP_error (res : Response) (detail : jsstring) : Exn :=
  Error (str "HTTP " ++ String_of_number (status res) ++ detail).

(** ** The page loaders *)

(** [loadHistoryPage], up to the call of [renderHistory] that ends it. *)
Definition loadHistoryPage (page : Z) (st : State) : Outcome * State :=
  let (reply, st1) := fetch (GetHistory page (historyPageSize st)) st in
  match reply with
  | NoReply => (Rejected NetworkError, st1)
  | Answer res =>
      if negb (ok res) then (Rejected (HTTP_error res []), st1)
      else
        match json res with
        | None => (Rejected BodyError, st1)
        | Some data =>
            (Resolved,
             set_history (page_of_response data page (history st1)) st1)
        end
  end.

(** [loadUsagePage], for a conversation id that URLSearchParams
    converts, up to the call of [renderStats] that ends it. *)
Definition loadUsagePage (page : Z) (st : State) : Outcome * State :=
  if negb (truthy (conversationId st)) then
    (Resolved,
     set_usage {| page := 1; page_size := usagePageSize st;
                  total := 0; items := [] |} st)
  else
    let (reply, st1) :=
      fetch (GetUsage (String_ (conversationId st)) page (usagePageSize st)) st
    in
    match reply with
    | NoReply => (Rejected NetworkError, st1)
    | Answer res =>
        if negb (ok res) then (Rejected (HTTP_error res []), st1)
        else
          match json res with
          | None => (Rejected BodyError, st1)
          | Some data =>
              (Resolved,
               set_usage (page_of_response data page (usage st1)) st1)
          end
    end.

(** The pair of [try { await load...Page(...) } catch { render...() }]
    that refreshes both collections; rendering changes no variable,
    and returns when it is given values that convert ([tidy_state]). *)
Definition refresh (st : State) : State :=
  let st1 := snd (loadUsagePage (usagePage st) st) in
  snd (loadHistoryPage (historyPage st1) st1).

(** ** The frame decoder *)

(** From a frame block to the frame given to the [if] chain; [None]
    for the two [continue]. *)
Definition frame_of_block (chunk : jsstring) : option Frame :=
  let (eventName, dataJson) := parse_lines chunk in
  match dataJson with
  | [] => None
  | _ :: _ =>
      match JSON_parse dataJson with
      | None => None
      | Some data => Some {| name := eventName; data := data |}
      end
  end.

Section Reader.

(** The two loops of [runAgentStream], over any state [W] and any body
    [handle] for the chain of [if] on the event name. *)
Variable W : Type.
Variable handle : Frame -> W -> Flow W.

Definition handle_block (chunk : jsstring) (w : W) : Flow W :=
  match frame_of_block chunk with
  | None => Next w
  | Some f => handle f w
  end.

Lemma slice_from_shorter (buffer : jsstring) (i : nat) :
  indexOf buffer SEP = Some i ->
  (length (slice_from (i + 2) buffer) < length buffer)%nat.
Proof.
  intros H. unfold slice_from. rewrite length_skipn.
  pose proof (indexOf_bound _ _ H) as B. simpl in B. lia.
Defined.

(** [while ((sepIndex = buffer.indexOf('\n\n')) !== -1) { ... }] *)
Equations pump (w : W) (buffer : jsstring) : Pumped W
  by wf (length buffer) lt :=
pump w buffer with Logic.inspect (indexOf buffer SEP) := {
  | exist _ None _ => More w buffer
  | exist _ (Some sepIndex) H =>
      match handle_block (slice_to sepIndex buffer) w with
      | Next w' => pump w' (slice_from (sepIndex + 2) buffer)
      | Stop r w' => Finished r w'
      end }.
Next Obligation. apply slice_from_shorter; assumption. Defined.

(** [while (true) { const { value, done } = await reader.read(); ... }] *)
Fixpoint read_loop (chunks : list (list byte)) (intact : bool)
    (decoder : TextDecoder) (buffer : jsstring) (w : W) : Outcome * W :=
  match chunks with
  | [] => if intact then (Resolved, w) else (Rejected NetworkError, w)
  | value :: rest =>
      let (decoder', s) := decode decoder value in
      match pump w (buffer ++ s) with
      | More w' buffer' => read_loop rest intact decoder' buffer' w'
      | Finished r w' => (r, w')
      end
  end.

(** The same chain of [if] run over a list of frames already decoded:
    the frames in order, up to the first that leaves the function. *)
Fixpoint feed (frames : list Frame) (w : W) : Flow W :=
  match frames with
  | [] => Next w
  | f :: frames' =>
      match handle f w with
      | Next w' => feed frames' w'
      | Stop r w' => Stop r w'
      end
  end.

(** How the outer loop ends once the source is exhausted. *)
Definition finish (intact : bool) (fl : Flow W) : Outcome * W :=
  match fl with
  | Next w => (if intact then Resolved else Rejected NetworkError, w)
  | Stop r w => (r, w)
  end.

Definition flow_state (fl : Flow W) : W :=
  match fl with Next w => w | Stop _ w => w end.

End Reader.

(** The outcome of a loop body, with the state left out. *)
Definition flow_outcome (W : Type) (fl : Flow W) : option Outcome :=
  match fl with Next _ => None | Stop r _ => Some r end.

(** The frames that the loops hand to the chain of [if]: the loops run
    with a body that only records its frame. *)
Definition collect (f : Frame) (acc : list Frame) : Flow (list Frame) :=
  Next (acc ++ [f]).

Definition frames_of_block (chunk : jsstring) : list Frame :=
  match frame_of_block chunk with Some f => [f] | None => [] end.

Definition frames_in (buffer : jsstring) : list Frame :=
  match pump collect [] buffer with
  | More fs _ => fs
  | Finished _ fs => fs
  end.

Definition rest_of (buffer : jsstring) : jsstring :=
  match pump collect [] buffer with
  | More _ r => r
  | Finished _ _ => []
  end.

Definition frames_from (chunks : list (list byte)) (decoder : TextDecoder)
    (buffer : jsstring) : list Frame :=
  snd (read_loop collect chunks true decoder buffer []).

Definition decoded_frames (chunks : list (list byte)) : list Frame :=
  frames_from chunks new_TextDecoder [].


(** ** The chain of [if] on the event name *)

Definition value_of (v : option JSON) : JSON :=
  match v with Some x => x | None => JNull end.

Definition typeof_string (v : option JSON) : bool :=
  match v with Some (JStr _) => true | _ => false end.

Definition string_of (v : option JSON) : jsstring :=
  match v with Some (JStr s) => s | _ => [] end.

(** The calls of [renderStats] in the branches change no variable and
    are left out; they return in a state that is [tidy_state]. *)
Definition dispatch (onDelta : jsstring -> State -> State)
    (f : Frame) (st : State) : Flow State :=
  let eventName := name f in
  let data := data f in
  if eqb_str eventName (str "meta")
     && truthy_opt (get data (str "conversation_id")) then
    let st1 := set_conversationId (value_of (get data (str "conversation_id"))) st in
    let st2 := saveConversationId (conversationId st1) st1 in
    let st3 := set_usagePage 1 st2 in
    if statsViewActive st3 then Next (refresh st3) else Next st3
  else if eqb_str eventName (str "delta")
          && typeof_string (get data (str "delta")) then
    Next (onDelta (string_of (get data (str "delta"))) st)
  else if eqb_str eventName (str "stats") && truthy data then
    if statsViewActive st then Next (refresh st) else Next st
  else if eqb_str eventName (str "error") then
    Stop (Rejected (Error
            (if truthy_opt (get data (str "message"))
             then String_ (value_of (get data (str "message")))
             else str "stream error"))) st
  else if eqb_str eventName (str "done") then
    let st1 :=
      if truthy_opt (get data (str "conversation_id"))
      then set_conversationId (value_of (get data (str "conversation_id"))) st
      else st in
    if statsViewActive st1 then Stop Resolved (refresh st1)
    else Stop Resolved st1
  else Next st.

(** ** [runAgentStream] *)

Definition runAgentStream (message : jsstring)
    (onDelta : jsstring -> State -> State) (st : State) : Outcome * State :=
  let payload_id :=
    if truthy (conversationId st) then Some (conversationId st) else None in
  let (reply, st1) := fetch (PostStream message payload_id) st in
  match reply with
  | NoReply => (Rejected NetworkError, st1)
  | Answer res =>
      let contentType :=
        toLowerCase (match content_type res with Some s => s | None => [] end)
      in
      if negb (ok res) then
        let detail :=
          match json res with
          | Some data =>
              if truthy_opt (get data (str "detail"))
              then str ": " ++ String_ (value_of (get data (str "detail")))
              else []
          | None => []
          end in
        (Rejected (HTTP_error res detail), st1)
      else
        match body res with
        | Some b =>
            if negb (includes contentType (str "text/event-stream")) then
              (Rejected (Error (str "Server did not return text/event-stream")),
               st1)
            else
              read_loop (dispatch onDelta) (chunks b) (intact b)
                new_TextDecoder [] st1
        | None =>
            (Rejected (Error (str "Server did not return text/event-stream")),
             st1)
        end
  end.

(** ** The navigation handlers *)

Definition statsPrev_click (st : State) : State :=
  if usagePage st <=? 1 then st
  else snd (loadUsagePage (usagePage st - 1) st).

Definition statsNext_click (st : State) : State :=
  if geb_x (usagePage st) (totalPages (usage st)) then st
  else snd (loadUsagePage (usagePage st + 1) st).

Definition historyPrev_click (st : State) : State :=
  if historyPage st <=? 1 then st
  else snd (loadHistoryPage (historyPage st - 1) st).

Definition historyNext_click (st : State) : State :=
  if geb_x (historyPage st) (totalPages (history st)) then st
  else snd (loadHistoryPage (historyPage st + 1) st).

(** ** The submit handler of the chat form *)

Definition appendMessage (role : Role) (t : jsstring) (st : State) : State :=
  set_messages (messages st ++ [(role, t)]) st.

(** The callback given to [runAgentStream]: [acc += delta] and the
    text of the bubble made for the answer, the last one, becomes [acc]. *)
Definition bubble_onDelta (delta : jsstring) (st : State) : State :=
  match rev (messages st) with
  | (role, acc) :: before =>
      set_messages (rev before ++ [(role, acc ++ delta)]) st
  | [] => st
  end.

(** The text shown for a caught exception, after the fixed prefix.
    For the exceptions of the platform it is the name of their class:
    the message that follows it is the browser's and is not
    represented. *)
Definition String_of_exn (e : Exn) : jsstring :=
  match e with
  | Error [] => str "Error"
  | Error m => str "Error: " ++ m
  | NetworkError => str "TypeError"
  | BodyError => str "SyntaxError"
  end.

Definition failure_prefix : jsstring := [20986; 38169; 20102; 65306].

Definition submit (inputValue : jsstring) (st : State) : State :=
  let text := trim inputValue in
  match text with
  | [] => st
  | _ :: _ =>
      let st1 := appendMessage user text st in
      let st2 := appendMessage assistant [] st1 in
      match runAgentStream text bubble_onDelta st2 with
      | (Resolved, st3) => st3
      | (Rejected err, st3) =>
          appendMessage assistant (failure_prefix ++ String_of_exn err) st3
      end
  end.

(** ** The menu and the rows of the history list *)

Definition set_historyPage (n : Z) (st : State) : State :=
  set_history {| page := n; page_size := historyPageSize st;
                 total := historyTotal st; items := historyItems st |} st.

Definition menuChat_click (st : State) : State := setActiveView ViewChat st.

(** [renderAgentInfo] changes no variable. *)
Definition menuEnv_click (st : State) : State := setActiveView ViewEnv st.

Definition menuStats_click (st : State) : State :=
  refresh (set_historyPage 1 (set_usagePage 1 (setActiveView ViewStats st))).

(** The click on the row that [renderHistory] made for [item]. *)
Definition historyRow_click (item : JSON) (st : State) : State :=
  if negb (truthy_opt (get item (str "conversation_id"))) then st
  else
    let st1 :=
      set_conversationId (value_of (get item (str "conversation_id"))) st in
    let st2 := saveConversationId (conversationId st1) st1 in
    let st3 := set_usagePage 1 st2 in
    snd (loadUsagePage (usagePage st3) st3).

(** ** The environment view *)





(** ** Vocabulary of the statements *)

(** What a state keeps through the page loaders: everything but the
    two collections and the list of requests. *)
Definition same_session (st st' : State) : Prop :=
  conversationId st' = conversationId st
  /\ activeView st' = activeView st
  /\ localStorage st' = localStorage st
  /\ storageFails st' = storageFails st
  /\ messages st' = messages st.

(** The request of [loadUsagePage], which sends none without a
    conversation id. *)
Definition usage_request (page : Z) (st : State) : list Request :=
  if truthy (conversationId st)
  then [GetUsage (String_ (conversationId st)) page (usagePageSize st)]
  else [].

(** The request with which [runAgentStream] opens its stream. *)
Definition stream_request (message : jsstring) (st : State) : Request :=
  PostStream message
    (if truthy (conversationId st) then Some (conversationId st) else None).

(** The answer is a stream that [runAgentStream] accepts to read. *)
Definition is_event_stream (res : Response) : bool :=
  ok res
  && includes
       (toLowerCase (match content_type res with Some s => s | None => [] end))
       (str "text/event-stream").

(** The page fetches sent between two states. *)
Definition issued (before after : State) : list Request :=
  skipn (length (requests before)) (requests after).

Definition carries_id (f : Frame) : bool :=
  truthy_opt (get (data f) (str "conversation_id")).

Definition frame_id (f : Frame) : JSON :=
  value_of (get (data f) (str "conversation_id")).

Definition is_meta (f : Frame) : bool :=
  eqb_str (name f) (str "meta") && carries_id f.

Definition is_stats (f : Frame) : bool :=
  eqb_str (name f) (str "stats") && truthy (data f).

Definition is_done (f : Frame) : bool := eqb_str (name f) (str "done").

Definition is_error (f : Frame) : bool := eqb_str (name f) (str "error").


(** The state in which the Meta branch refreshes or renders. *)
Definition after_meta (f : Frame) (st : State) : State :=
  set_usagePage 1
    (saveConversationId (frame_id f) (set_conversationId (frame_id f) st)).

(** The state in which the Done branch refreshes or renders. *)
Definition after_done (f : Frame) (st : State) : State :=
  if carries_id f then set_conversationId (frame_id f) st else st.

(** The exception of the Error branch. *)
Definition error_of (f : Frame) : Exn :=
  Error (if truthy_opt (get (data f) (str "message"))
         then String_ (value_of (get (data f) (str "message")))
         else str "stream error").

(** The identity that a frame leaves, from the one it finds. *)
Definition identity_after (id : JSON) (f : Frame) : JSON :=
  if (is_meta f || is_done f) && carries_id f then frame_id f else id.




(** A fetch that makes the loader throw: no answer, a status outside
    200-299, or a body that [res.json] cannot read. *)
Definition fetch_failed (reply : Reply) : bool :=
  match reply with
  | NoReply => true
  | Answer res =>
      negb (ok res) || match json res with Some _ => false | None => true end
  end.

(** The value of a line [event:] and of a line [data:]. *)
Definition event_value (line : jsstring) : jsstring := trim (slice_from 6 line).
Definition data_value (line : jsstring) : jsstring := trim (slice_from 5 line).
Definition is_event_line (line : jsstring) : bool :=
  startsWith line (str "event:").
Definition is_data_line (line : jsstring) : bool :=
  startsWith line (str "data:").

(** The state once the stream request is sent. *)
Definition opened (message : jsstring) (st : State) : State :=
  set_requests (requests st ++ [stream_request message st]) st.

(** The server answers the stream request with a stream of body [b]. *)
Definition streams (message : jsstring) (st : State) (b : Body) : Prop :=
  exists res,
    server (requests st ++ [stream_request message st]) = Answer res
    /\ is_event_stream res = true
    /\ body res = Some b.

(** An answer that [runAgentStream] refuses to read. *)
Definition refused (reply : Reply) : bool :=
  match reply with
  | NoReply => true
  | Answer res =>
      negb (is_event_stream res)
      || match body res with Some _ => false | None => true end
  end.

(** The text of the whole stream. *)
Definition stream_text (chunks : list (list byte)) : jsstring :=
  snd (decode new_TextDecoder (concat chunks)).

(** The text that a frame gives to the callback. *)
Definition delta_text (f : Frame) : jsstring :=
  if eqb_str (name f) (str "delta")
     && typeof_string (get (data f) (str "delta"))
  then string_of (get (data f) (str "delta"))
  else [].

(** A frame that enters a branch of the chain of [if]. *)
Definition acts (f : Frame) : bool :=
  is_meta f
  || (eqb_str (name f) (str "delta")
      && typeof_string (get (data f) (str "delta")))
  || is_stats f || is_error f || is_done f.

(** The frames before the first Done or Error. *)
Fixpoint live (frames : list Frame) : list Frame :=
  match frames with
  | [] => []
  | f :: frames' =>
      if is_done f || is_error f then [] else f :: live frames'
  end.

(** The bubble that the submit handler adds for a turn that failed. *)
Definition failure_bubble (o : Outcome) : list (Role * jsstring) :=
  match o with
  | Resolved => []
  | Rejected e => [(assistant, failure_prefix ++ String_of_exn e)]
  end.

(** The state in which the submit handler calls [runAgentStream]. *)
Definition asked (t : jsstring) (st : State) : State :=
  appendMessage assistant [] (appendMessage user t st).

Definition blank (s : jsstring) : Prop := Forall (fun c => is_space c = true) s.

(** Two states that differ at most in the local storage. *)
Definition same_but_storage (a b : State) : Prop :=
  conversationId a = conversationId b
  /\ usage a = usage b
  /\ history a = history b
  /\ activeView a = activeView b
  /\ requests a = requests b
  /\ messages a = messages b.

(** ** The values that the views show

    [v ? String(v) : '-'] and [v || '-'] given to [textContent]: the
    conversion, if there is one, returns. *)
Definition shows (v : option JSON) : bool :=
  negb (truthy_opt v) || printable (value_of v).

(** The texts that [renderStats] makes for a usage record (the date,
    and the model name that the later version of the file adds) and
    [renderHistory] for a conversation; the counters go through [fmt]
    and a template, which take numbers only. *)
Definition usage_item_shown (item : JSON) : bool :=
  shows (get item (str "created_at")) && shows (get item (str "model_name")).

Definition history_item_shown (item : JSON) : bool :=
  shows (get item (str "conversation_id")).

(** A state that [renderStats] and [renderHistory] render without a
    throw, and whose conversation id [loadUsagePage] can send. *)
Definition tidy_state (st : State) : bool :=
  shows (Some (conversationId st))
  && forallb usage_item_shown (usageItems st)
  && forallb history_item_shown (historyItems st).

(** An answer whose records, taken up by a loader, can be rendered. *)
Definition tidy_answer (reply : Reply) : bool :=
  match reply with
  | NoReply => true
  | Answer res =>
      match json res with
      | Some data =>
          forallb usage_item_shown (array_or_empty (get data (str "items")))
          && forallb history_item_shown
               (array_or_empty (get data (str "items")))
      | None => true
      end
  end.

(** A frame whose branch converts nothing that throws: the
    conversation id that Meta and Done store and render, the message
    that Error gives to [new Error]. *)
Definition tidy_frame (f : Frame) : bool :=
  (negb (is_meta f || is_done f) || shows (get (data f) (str "conversation_id")))
  && (negb (is_error f) || shows (get (data f) (str "message"))).

(** A callback that leaves alone what the usage view shows. *)
Definition keeps_view (onDelta : jsstring -> State -> State) : Prop :=
  forall d s,
    conversationId (onDelta d s) = conversationId s
    /\ usage (onDelta d s) = usage s
    /\ history (onDelta d s) = history s.


End App.

(** The ways through the chain of [if]: its five branches, or none. *)
Inductive Branch (f : Frame) : Prop :=
| BranchMeta : is_meta f = true -> Branch f
| BranchDelta : name f = str "delta" -> Branch f
| BranchStats : is_stats f = true -> Branch f
| BranchError : is_error f = true -> Branch f
| BranchDone : is_done f = true -> Branch f
| BranchNone : is_meta f = false -> name f <> str "delta" ->
               is_stats f = false -> is_error f = false ->
               is_done f = false -> Branch f.

(** ** Servers, streams and states of the examples *)

Definition event_stream (chunks : list (list byte)) : Reply :=
  Answer {| status := 200;
            content_type := Some (str "text/event-stream; charset=utf-8");
            body := Some {| chunks := chunks; intact := true |} |}.

Definition json_answer (status : Z) (body : string) : Reply :=
  Answer {| status := status;
            content_type := Some (str "application/json");
            body := Some {| chunks := [wire body]; intact := true |} |}.

(** A server that streams [chunks] in answer to a chat message and
    gives [pages] in answer to every page fetch. *)
Definition stream_server (chunks : list (list byte)) (pages : Reply)
    (sent : list Request) : Reply :=
  match last sent (GetHistory 0 0) with
  | PostStream _ _ => event_stream chunks
  | _ => pages
  end.

(** The usage view is shown, on page 2 of the 25 usage records of
    conversation c1 and on page 3 of 25 conversations. *)
Definition browsing : State :=
  {| conversationId := JStr (str "c1");
     usage := {| page := 2; page_size := 20; total := 25; items := [] |};
     history := {| page := 3; page_size := 10; total := 25; items := [] |};
     activeView := ViewStats; localStorage := Some (str "c1");
     storageFails := false; requests := []; messages := [] |}.


(** The stream of the first scenario of the design document, in the
    three chunks in which it arrives. *)
Definition meta_delta_done : list (list byte) :=
  [wire "event: meta|data: {'conversation_id':'c1'}||";
   wire "event: delta|data: {'delta':'Hi'}||";
   wire "event: done|data: {}||"].

Definition meta_only : list (list byte) :=
  [wire "event: meta|data: {'conversation_id':'c1'}||"].

Definition done_with_id : list (list byte) :=
  [wire "event: done|data: {'conversation_id':'X'}||event: delta|data: {'delta':'late'}||"].

Definition meta_with_id : list (list byte) :=
  [wire "event: meta|data: {'conversation_id':'X'}||event: done|data: {}||"].

Definition done_only : list (list byte) := [wire "event: done|data: {}||"].

(** A stream cut inside the two bytes of a character and inside a
    separator. *)
Definition cut_stream : list (list byte) :=
  [wire "event: delta|data: {'delta':'caf" ++ [xc3];
   [xa9] ++ wire "'}|";
   wire "|event: done|data: {}||"].

Definition malformed_then_delta : jsstring :=
  text "event: delta|data: not-json||event: delta|data: {'delta':'Hi'}||".

(** A server whose stream breaks after the chunks are delivered. *)
Definition breaking_server (chunks : list (list byte))
    (sent : list Request) : Reply :=
  Answer {| status := 200;
            content_type := Some (str "text/event-stream");
            body := Some {| chunks := chunks; intact := false |} |}.

(** A stream whose last block no blank line closes. *)
Definition unterminated : list (list byte) :=
  [wire "event: delta|data: {'delta':'Hi'}||event: done|data: {}"].

(** A stream with an Error frame between two Delta frames. *)
Definition with_error : list (list byte) :=
  [wire "event: delta|data: {'delta':'Hi'}||";
   wire "event: error|data: {'message':'boom'}||event: delta|data: {'delta':'late'}||"].

Definition delta_frame (t : string) : Frame :=
  {| name := str "delta"; data := JObj [(str "delta", JStr (str t))] |}.

Definition error_frame (t : string) : Frame :=
  {| name := str "error"; data := JObj [(str "message", JStr (str t))] |}.

Definition done_frame_X : Frame :=
  {| name := str "done";
     data := JObj [(str "conversation_id", JStr (str "X"))] |}.

Definition meta_frame_X : Frame :=
  {| name := str "meta";
     data := JObj [(str "conversation_id", JStr (str "X"))] |}.

(** The first state of the page with a local storage that throws. *)
Definition storage_broken : State :=
  {| conversationId := JNull; usage := usage initial_state;
     history := history initial_state; activeView := ViewChat;
     localStorage := None; storageFails := true; requests := [];
     messages := [] |}.

(** The usage view on the first page of 45 usage records of
    conversation c1 and on the first page of 25 conversations. *)
Definition paging : State :=
  {| conversationId := JStr (str "c1");
     usage := {| page := 1; page_size := 20; total := 45; items := [] |};
     history := {| page := 1; page_size := 10; total := 25; items := [] |};
     activeView := ViewStats; localStorage := None; storageFails := false;
     requests := []; messages := [] |}.

(** A Delta, a Done with the conversation id X, and a Delta after it. *)
Definition done_after_delta : list (list byte) :=
  [wire "event: delta|data: {'delta':'Hi'}||";
   wire "event: done|data: {'conversation_id':'X'}||event: delta|data: {'delta':'late'}||"].

Definition history_row_X : JSON :=
  JObj [(str "conversation_id", JStr (str "X")); (str "turns", JNum 3)].

Definition delta_without_text : Frame :=
  {| name := str "delta"; data := JObj [(str "delta", JNum 5)] |}.

(** An answer to a page fetch: one record, with a date and a
    conversation id. *)
Definition one_record : Reply :=
  json_answer 200
    "{'page':1,'page_size':20,'total':1,'items':[{'turn_index':1,'created_at':'2024-05-01','conversation_id':'c1'}]}".

(** The first state of the page with the usage view shown. *)
Definition watching : State := setActiveView ViewStats initial_state.


(** * Properties *)

(** ** Strings and the decoder *)

Lemma startsWith_app (s p t : jsstring) :
  (length p <= length s)%nat -> startsWith (s ++ t) p = startsWith s p.
Proof.
  revert s; induction p as [|c p IH]; intros [|d s] H; simpl in *;
    try reflexivity; try lia.
  rewrite IH by lia. reflexivity.
Qed.

Lemma indexOf_app (s p t : jsstring) (i : nat) :
  indexOf s p = Some i -> indexOf (s ++ t) p = Some i.
Proof.
  revert i; induction s as [|c s IH]; intros i H.
  - cbn [indexOf] in H. destruct (startsWith [] p) eqn:E; [|discriminate].
    injection H as <-. destruct p; [|discriminate].
    destruct t; reflexivity.
  - pose proof (indexOf_bound _ _ H) as B.
    cbn [indexOf] in H. cbn [app indexOf].
    change (c :: s ++ t) with ((c :: s) ++ t).
    rewrite startsWith_app by (simpl in *; lia).
    destruct (startsWith (c :: s) p); [assumption|].
    destruct (indexOf s p) as [j|]; [|discriminate].
    rewrite (IH j eq_refl). assumption.
Qed.

Lemma decode_app (d : TextDecoder) (a b : list byte) :
  decode d (a ++ b) =
  let (d1, s1) := decode d a in
  let (d2, s2) := decode d1 b in
  (d2, s1 ++ s2).
Proof.
  revert d; induction a as [|x a IH]; intros d; simpl.
  - destruct (decode d b); reflexivity.
  - destruct (decode_byte d x) as [d1 s1]. rewrite IH.
    destruct (decode d1 a) as [d2 s2]. destruct (decode d2 b) as [d3 s3].
    rewrite app_assoc. reflexivity.
Qed.

Lemma firstn_app_within (A : Type) (i : nat) (a b : list A) :
  (i <= length a)%nat -> firstn i (a ++ b) = firstn i a.
Proof.
  intros H. rewrite firstn_app.
  replace (i - length a)%nat with 0%nat by lia.
  simpl. apply app_nil_r.
Qed.

Lemma skipn_app_within (A : Type) (i : nat) (a b : list A) :
  (i <= length a)%nat -> skipn i (a ++ b) = skipn i a ++ b.
Proof.
  intros H. rewrite skipn_app.
  replace (i - length a)%nat with 0%nat by lia. reflexivity.
Qed.

(** ** The two loops *)

Section ReaderFacts.

Variable JSON_parse : jsstring -> option JSON.
Variable W : Type.
Variable handle : Frame -> W -> Flow W.

Local Abbreviation pump_h := (pump JSON_parse handle).
Local Abbreviation block_h := (handle_block JSON_parse handle).

(** One turn of the inner loop. *)
Lemma pump_step (w : W) (buffer : jsstring) :
  pump_h w buffer =
  match indexOf buffer SEP with
  | None => More w buffer
  | Some i =>
      match block_h (slice_to i buffer) w with
      | Next w' => pump_h w' (slice_from (i + 2) buffer)
      | Stop r w' => Finished r w'
      end
  end.
Proof.
  funelim (pump JSON_parse handle w buffer).
  - rewrite H. reflexivity.
  - rewrite e. reflexivity.
Qed.

(** Induction on the buffers that the inner loop goes through. *)
Lemma buffer_ind (P : jsstring -> Prop) :
  (forall buffer,
      (forall i, indexOf buffer SEP = Some i ->
                 P (slice_from (i + 2) buffer)) ->
      P buffer) ->
  forall buffer, P buffer.
Proof.
  intros step buffer.
  induction buffer as [buffer IH] using (induction_ltof1 _ (@length Z)).
  apply step. intros i Hi. apply IH. unfold ltof.
  apply slice_from_shorter. assumption.
Qed.

(** Text that arrives later does not change what the loop does with
    the text it already has. *)
Lemma pump_app (b1 b2 : jsstring) (w : W) :
  pump_h w (b1 ++ b2) =
  match pump_h w b1 with
  | More w' rest => pump_h w' (rest ++ b2)
  | Finished r w' => Finished r w'
  end.
Proof.
  revert w. induction b1 as [b1 IH] using buffer_ind. intros w.
  rewrite (pump_step w b1).
  destruct (indexOf b1 SEP) as [i|] eqn:E; [|reflexivity].
  rewrite (pump_step w (b1 ++ b2)), (indexOf_app _ _ b2 E).
  pose proof (indexOf_bound _ _ E) as B. simpl in B.
  unfold slice_to, slice_from in *.
  rewrite firstn_app_within, skipn_app_within by lia.
  destruct (block_h (firstn i b1) w) as [w'|r w']; [|reflexivity].
  apply (IH i eq_refl).
Qed.

(** What the loop leaves in the buffer holds no separator. *)
Lemma pump_rest (buffer : jsstring) (w w' : W) (rest : jsstring) :
  pump_h w buffer = More w' rest -> indexOf rest SEP = None.
Proof.
  revert w. induction buffer as [buffer IH] using buffer_ind. intros w.
  rewrite pump_step. destruct (indexOf buffer SEP) as [i|] eqn:E.
  - destruct (block_h (slice_to i buffer) w) as [w1|r w1]; [|discriminate].
    apply (IH i eq_refl).
  - intros H. injection H as _ <-. assumption.
Qed.

Lemma pump_idle (buffer : jsstring) (w : W) :
  indexOf buffer SEP = None -> pump_h w buffer = More w buffer.
Proof. intros H. rewrite pump_step, H. reflexivity. Qed.

(** Reading the chunks one by one or all the bytes at once. *)
Lemma read_loop_concat (chunks : list (list byte)) (intact : bool)
    (decoder : TextDecoder) (buffer : jsstring) (w : W) :
  indexOf buffer SEP = None ->
  read_loop JSON_parse handle chunks intact decoder buffer w =
  read_loop JSON_parse handle [concat chunks] intact decoder buffer w.
Proof.
  revert decoder buffer w.
  induction chunks as [|c cs IH]; intros decoder buffer w Hb.
  - simpl. rewrite app_nil_r, pump_idle by assumption. reflexivity.
  - cbn [read_loop concat]. rewrite decode_app.
    destruct (decode decoder c) as [d1 s1].
    destruct (pump_h w (buffer ++ s1)) as [w1 rest|r w1] eqn:E1.
    + rewrite (IH d1 rest w1 (pump_rest _ _ E1)). cbn [read_loop].
      destruct (decode d1 (concat cs)) as [d2 s2].
      rewrite app_assoc, (pump_app (buffer ++ s1) s2 w), E1. reflexivity.
    + destruct (decode d1 (concat cs)) as [d2 s2].
      rewrite app_assoc, (pump_app (buffer ++ s1) s2 w), E1. reflexivity.
Qed.

End ReaderFacts.

(** ** The loops as a decoder followed by a dispatcher *)

Section Pipeline.

Variable JSON_parse : jsstring -> option JSON.

Local Abbreviation pump_c := (pump JSON_parse collect).

Lemma handle_block_collect (chunk : jsstring) (acc : list Frame) :
  handle_block JSON_parse collect chunk acc =
  Next (acc ++ frames_of_block JSON_parse chunk).
Proof.
  unfold handle_block, frames_of_block, collect.
  destruct (frame_of_block JSON_parse chunk); [|rewrite app_nil_r];
    reflexivity.
Qed.

Lemma pump_collect (buffer : jsstring) (acc : list Frame) :
  pump_c acc buffer =
  More (acc ++ frames_in JSON_parse buffer) (rest_of JSON_parse buffer).
Proof.
  unfold frames_in, rest_of. revert acc.
  induction buffer as [buffer IH] using buffer_ind. intros acc.
  rewrite (pump_step JSON_parse collect acc buffer).
  rewrite (pump_step JSON_parse collect [] buffer).
  destruct (indexOf buffer SEP) as [i|].
  - rewrite !handle_block_collect.
    rewrite (IH i eq_refl (acc ++ _)), (IH i eq_refl ([] ++ _)).
    rewrite <- app_assoc. reflexivity.
  - rewrite app_nil_r. reflexivity.
Qed.

Lemma frames_in_step (buffer : jsstring) :
  frames_in JSON_parse buffer =
  match indexOf buffer SEP with
  | None => []
  | Some i =>
      frames_of_block JSON_parse (slice_to i buffer)
      ++ frames_in JSON_parse (slice_from (i + 2) buffer)
  end.
Proof.
  unfold frames_in at 1. rewrite pump_step.
  destruct (indexOf buffer SEP) as [i|]; [|reflexivity].
  rewrite handle_block_collect, pump_collect. reflexivity.
Qed.

Lemma rest_of_step (buffer : jsstring) :
  rest_of JSON_parse buffer =
  match indexOf buffer SEP with
  | None => buffer
  | Some i => rest_of JSON_parse (slice_from (i + 2) buffer)
  end.
Proof.
  unfold rest_of at 1. rewrite pump_step.
  destruct (indexOf buffer SEP) as [i|]; [|reflexivity].
  rewrite handle_block_collect, pump_collect. reflexivity.
Qed.

Lemma frames_from_cons (c : list byte) (cs : list (list byte))
    (decoder : TextDecoder) (buffer : jsstring) :
  frames_from JSON_parse (c :: cs) decoder buffer =
  frames_in JSON_parse (buffer ++ snd (decode decoder c))
  ++ frames_from JSON_parse cs (fst (decode decoder c))
       (rest_of JSON_parse (buffer ++ snd (decode decoder c))).
Proof.
  assert (G : forall cs d b acc,
             read_loop JSON_parse collect cs true d b acc =
             (Resolved, acc ++ frames_from JSON_parse cs d b)).
  { clear. unfold frames_from.
    induction cs as [|c cs IH]; intros d b acc; cbn [read_loop].
    - simpl. rewrite app_nil_r. reflexivity.
    - destruct (decode d c) as [d1 s]. rewrite !pump_collect.
      rewrite (IH d1 _ (acc ++ _)), (IH d1 _ ([] ++ _)).
      simpl. rewrite app_assoc. reflexivity. }
  unfold frames_from at 1. cbn [read_loop].
  destruct (decode decoder c) as [d1 s]. rewrite pump_collect, G.
  reflexivity.
Qed.

Variable W : Type.
Variable handle : Frame -> W -> Flow W.

Lemma feed_app (fs1 fs2 : list Frame) (w : W) :
  feed handle (fs1 ++ fs2) w =
  match feed handle fs1 w with
  | Next w' => feed handle fs2 w'
  | Stop r w' => Stop r w'
  end.
Proof.
  revert w; induction fs1 as [|f fs1 IH]; intros w; simpl.
  - reflexivity.
  - destruct (handle f w); [apply IH | reflexivity].
Qed.

(** The inner loop gives the frames of the buffer, in order, to the
    chain of [if], and keeps what follows the last separator. *)
Lemma pump_feed (buffer : jsstring) (w : W) :
  pump JSON_parse handle w buffer =
  match feed handle (frames_in JSON_parse buffer) w with
  | Next w' => More w' (rest_of JSON_parse buffer)
  | Stop r w' => Finished r w'
  end.
Proof.
  revert w. induction buffer as [buffer IH] using buffer_ind. intros w.
  rewrite pump_step, frames_in_step, rest_of_step.
  destruct (indexOf buffer SEP) as [i|] eqn:E; [|reflexivity].
  rewrite feed_app. unfold handle_block, frames_of_block.
  destruct (frame_of_block JSON_parse (slice_to i buffer)) as [f|]; simpl.
  - destruct (handle f w); [apply (IH i eq_refl) | reflexivity].
  - apply (IH i eq_refl).
Qed.

(** [runAgentStream] reads its stream as a decoder followed by a
    dispatcher: the outer loop is the chain of [if] run over the frames
    of the stream. *)
Lemma read_loop_feed (chunks : list (list byte)) (intact : bool)
    (decoder : TextDecoder) (buffer : jsstring) (w : W) :
  read_loop JSON_parse handle chunks intact decoder buffer w =
  finish intact (feed handle (frames_from JSON_parse chunks decoder buffer) w).
Proof.
  revert decoder buffer w.
  induction chunks as [|c cs IH]; intros decoder buffer w.
  - destruct intact; reflexivity.
  - rewrite frames_from_cons, feed_app. cbn [read_loop].
    destruct (decode decoder c) as [d1 s]. cbn [fst snd].
    rewrite pump_feed.
    destruct (feed handle (frames_in JSON_parse (buffer ++ s)) w);
      [apply IH | reflexivity].
Qed.

End Pipeline.

(** ** The loaders and the chain of [if] *)

Lemma eqb_str_eq (a b : jsstring) : eqb_str a b = true <-> a = b.
Proof.
  revert b; induction a as [|x a IH]; intros [|y b]; simpl;
    try (split; [discriminate | intros H; discriminate H]);
    [split; reflexivity|].
  rewrite andb_true_iff, Z.eqb_eq, IH. split.
  - intros [-> ->]. reflexivity.
  - intros H. injection H as -> ->. split; reflexivity.
Qed.

Lemma skipn_exact (A : Type) (a b : list A) : skipn (length a) (a ++ b) = b.
Proof. induction a as [|x a IH]; simpl; [reflexivity | assumption]. Qed.

Lemma same_session_trans (a b c : State) :
  same_session a b -> same_session b c -> same_session a c.
Proof.
  unfold same_session. intros (A1 & A2 & A3 & A4 & A5) (B1 & B2 & B3 & B4 & B5).
  repeat split; congruence.
Qed.

Section AppFacts.

Variable JSON_parse : jsstring -> option JSON.
Variable server : list Request -> Reply.

Local Abbreviation loadUsage := (loadUsagePage JSON_parse server).
Local Abbreviation loadHistory := (loadHistoryPage JSON_parse server).
Local Abbreviation refresh' := (refresh JSON_parse server).
Local Abbreviation dispatch' := (dispatch JSON_parse server).

Lemma loadUsagePage_session (page : Z) (st : State) :
  same_session st (snd (loadUsage page st))
  /\ history (snd (loadUsage page st)) = history st
  /\ requests (snd (loadUsage page st))
     = requests st ++ usage_request page st.
Proof.
  unfold loadUsagePage, usage_request, fetch.
  destruct (truthy (conversationId st)); cbn [negb].
  - cbn [requests set_requests].
    destruct (server _) as [|res]; [repeat split|].
    destruct (ok res); cbn [negb]; [|repeat split].
    destruct (json JSON_parse res); repeat split.
  - simpl. rewrite app_nil_r. repeat split.
Qed.

Lemma loadHistoryPage_session (page : Z) (st : State) :
  same_session st (snd (loadHistory page st))
  /\ usage (snd (loadHistory page st)) = usage st
  /\ requests (snd (loadHistory page st))
     = requests st ++ [GetHistory page (historyPageSize st)].
Proof.
  unfold loadHistoryPage, fetch. cbn [requests set_requests].
  destruct (server _) as [|res]; [repeat split|].
  destruct (ok res); cbn [negb]; [|repeat split].
  destruct (json JSON_parse res); repeat split.
Qed.

Lemma refresh_session (st : State) :
  same_session st (refresh' st)
  /\ requests (refresh' st)
     = requests st ++ usage_request (usagePage st) st
       ++ [GetHistory (historyPage st) (historyPageSize st)].
Proof.
  unfold refresh.
  destruct (loadUsagePage_session (usagePage st) st) as (S1 & H1 & R1).
  set (st1 := snd (loadUsage (usagePage st) st)) in *.
  destruct (loadHistoryPage_session (historyPage st1) st1) as (S2 & _ & R2).
  split; [eapply same_session_trans; eassumption|].
  rewrite R2, R1. unfold historyPage, historyPageSize. rewrite H1.
  rewrite <- app_assoc. reflexivity.
Qed.

(** The state that the Meta branch reaches before it refreshes. *)
Lemma saveConversationId_session (id : JSON) (st : State) :
  conversationId (saveConversationId id st) = conversationId st
  /\ usage (saveConversationId id st) = usage st
  /\ history (saveConversationId id st) = history st
  /\ activeView (saveConversationId id st) = activeView st
  /\ requests (saveConversationId id st) = requests st
  /\ messages (saveConversationId id st) = messages st.
Proof.
  unfold saveConversationId. destruct (storageFails st); [repeat split|].
  destruct (truthy id && negb (eqb_str (trim (String_ id)) []));
    repeat split.
Qed.

Ltac eval_names :=
  repeat match goal with
  | |- context [eqb_str (str ?a) (str ?b)] =>
      let v := eval vm_compute in (eqb_str (str a) (str b)) in
      change (eqb_str (str a) (str b)) with v
  end.

Ltac name_of f H :=
  apply andb_prop in H as [H ?] || idtac;
  apply eqb_str_eq in H; unfold dispatch; rewrite H; eval_names;
  cbn [andb].

Variable onDelta : jsstring -> State -> State.

Lemma dispatch_meta (f : Frame) (st : State) :
  is_meta f = true ->
  dispatch' onDelta f st =
  Next (if statsViewActive st then refresh' (after_meta f st)
        else after_meta f st).
Proof.
  unfold is_meta, carries_id, dispatch. intros ->.
  change (statsViewActive (set_usagePage 1 _))
    with (statsViewActive
            (saveConversationId (frame_id f)
               (set_conversationId (frame_id f) st))).
  unfold statsViewActive at 1.
  destruct (saveConversationId_session (frame_id f)
              (set_conversationId (frame_id f) st)) as (_ & _ & _ & V & _).
  change (conversationId (set_conversationId ?v st)) with v.
  fold (frame_id f). rewrite V. cbn [activeView set_conversationId].
  fold (statsViewActive st). destruct (statsViewActive st); reflexivity.
Qed.

Lemma dispatch_stats (f : Frame) (st : State) :
  is_stats f = true ->
  dispatch' onDelta f st =
  Next (if statsViewActive st then refresh' st else st).
Proof.
  unfold is_stats. intros H. name_of f H.
  match goal with E : truthy _ = true |- _ => rewrite E end.
  destruct (statsViewActive st); reflexivity.
Qed.

Lemma dispatch_error (f : Frame) (st : State) :
  is_error f = true ->
  dispatch' onDelta f st = Stop (Rejected (error_of f)) st.
Proof. unfold is_error. intros H. name_of f H. reflexivity. Qed.

Lemma dispatch_done (f : Frame) (st : State) :
  is_done f = true ->
  dispatch' onDelta f st =
  Stop Resolved (if statsViewActive st then refresh' (after_done f st)
                 else after_done f st).
Proof.
  unfold is_done. intros H. name_of f H.
  unfold after_done, carries_id, frame_id.
  destruct (truthy_opt (get (data f) (str "conversation_id")));
    change (statsViewActive (set_conversationId ?v st))
      with (statsViewActive st);
    destruct (statsViewActive st); reflexivity.
Qed.

Lemma dispatch_delta (f : Frame) (st : State) :
  name f = str "delta" ->
  dispatch' onDelta f st =
  if typeof_string (get (data f) (str "delta"))
  then Next (onDelta (string_of (get (data f) (str "delta"))) st)
  else Next st.
Proof.
  intros H. unfold dispatch. rewrite H. eval_names. cbn [andb].
  destruct (typeof_string (get (data f) (str "delta"))); reflexivity.
Qed.

(** Every other frame is passed over. *)
Lemma dispatch_other (f : Frame) (st : State) :
  is_meta f = false -> name f <> str "delta" -> is_stats f = false ->
  is_error f = false -> is_done f = false ->
  dispatch' onDelta f st = Next st.
Proof.
  unfold is_meta, carries_id, is_stats, is_error, is_done, dispatch.
  intros -> D -> -> ->.
  destruct (eqb_str (name f) (str "delta")) eqn:E; [|reflexivity].
  apply eqb_str_eq in E. contradiction.
Qed.

Lemma is_meta_name (f : Frame) :
  is_meta f = true ->
  name f = str "meta" /\ carries_id f = true /\ is_stats f = false
  /\ is_error f = false /\ is_done f = false.
Proof.
  unfold is_meta, is_stats, is_error, is_done. intros H.
  apply andb_prop in H as [H C]. apply eqb_str_eq in H. rewrite H.
  eval_names. repeat split; assumption.
Qed.

Lemma is_stats_name (f : Frame) :
  is_stats f = true ->
  name f = str "stats" /\ is_meta f = false
  /\ is_error f = false /\ is_done f = false.
Proof.
  unfold is_meta, is_stats, is_error, is_done. intros H.
  apply andb_prop in H as [H C]. apply eqb_str_eq in H. rewrite H.
  eval_names. repeat split.
Qed.

Lemma is_error_name (f : Frame) :
  is_error f = true ->
  name f = str "error" /\ is_meta f = false
  /\ is_stats f = false /\ is_done f = false.
Proof.
  unfold is_meta, is_stats, is_error, is_done. intros H.
  apply eqb_str_eq in H. rewrite H. eval_names. repeat split.
Qed.

Lemma is_done_name (f : Frame) :
  is_done f = true ->
  name f = str "done" /\ is_meta f = false
  /\ is_stats f = false /\ is_error f = false.
Proof.
  unfold is_meta, is_stats, is_error, is_done. intros H.
  apply eqb_str_eq in H. rewrite H. eval_names. repeat split.
Qed.

Lemma delta_name (f : Frame) :
  name f = str "delta" ->
  is_meta f = false /\ is_stats f = false
  /\ is_error f = false /\ is_done f = false.
Proof.
  unfold is_meta, is_stats, is_error, is_done. intros ->.
  eval_names. repeat split.
Qed.

Lemma branch (f : Frame) : Branch f.
Proof.
  destruct (is_meta f) eqn:M; [now apply BranchMeta|].
  destruct (eqb_str (name f) (str "delta")) eqn:D;
    [apply eqb_str_eq in D; now apply BranchDelta|].
  destruct (is_stats f) eqn:S; [now apply BranchStats|].
  destruct (is_error f) eqn:E; [now apply BranchError|].
  destruct (is_done f) eqn:O; [now apply BranchDone|].
  apply BranchNone; try assumption.
  intros N. apply eqb_str_eq in N. congruence.
Qed.

Lemma after_meta_fields (f : Frame) (st : State) :
  conversationId (after_meta f st) = frame_id f
  /\ usagePage (after_meta f st) = 1
  /\ usagePageSize (after_meta f st) = usagePageSize st
  /\ history (after_meta f st) = history st
  /\ requests (after_meta f st) = requests st.
Proof.
  unfold after_meta.
  destruct (saveConversationId_session (frame_id f)
              (set_conversationId (frame_id f) st))
    as (C & U & H & V & R & M).
  unfold usagePage, usagePageSize, set_usagePage.
  cbn [conversationId usage history requests set_usage page page_size].
  unfold usagePageSize. rewrite C, U, H, R. repeat split.
Qed.

Lemma after_done_fields (f : Frame) (st : State) :
  conversationId (after_done f st)
  = (if carries_id f then frame_id f else conversationId st)
  /\ usage (after_done f st) = usage st
  /\ history (after_done f st) = history st
  /\ requests (after_done f st) = requests st.
Proof.
  unfold after_done. destruct (carries_id f); repeat split.
Qed.

(** The identity after a frame, for a callback that leaves it alone. *)
Lemma dispatch_identity (f : Frame) (st : State) :
  (forall d s, conversationId (onDelta d s) = conversationId s) ->
  conversationId (flow_state (dispatch' onDelta f st))
  = identity_after (conversationId st) f.
Proof.
  intros HD. unfold identity_after. destruct (branch f) as [H|H|H|H|H|M D S E O].
  - rewrite (dispatch_meta _ _ H), H.
    destruct (is_meta_name _ H) as (_ & -> & _). cbn [orb andb flow_state].
    destruct (after_meta_fields f st) as (C & _).
    destruct (statsViewActive st); [|exact C].
    destruct (refresh_session (after_meta f st)) as ((-> & _) & _). exact C.
  - rewrite (dispatch_delta _ _ H).
    destruct (delta_name _ H) as (-> & _ & _ & ->). cbn [orb andb].
    destruct (typeof_string _); cbn [flow_state]; [apply HD | reflexivity].
  - rewrite (dispatch_stats _ _ H).
    destruct (is_stats_name _ H) as (_ & -> & _ & ->). cbn [orb andb flow_state].
    destruct (statsViewActive st); [|reflexivity].
    now destruct (refresh_session st) as ((-> & _) & _).
  - rewrite (dispatch_error _ _ H).
    destruct (is_error_name _ H) as (_ & -> & _ & ->). reflexivity.
  - rewrite (dispatch_done _ _ H), H.
    destruct (is_done_name _ H) as (_ & -> & _). cbn [orb andb flow_state].
    destruct (after_done_fields f st) as (C & _).
    destruct (statsViewActive st); [|exact C].
    destruct (refresh_session (after_done f st)) as ((-> & _) & _). exact C.
  - rewrite (dispatch_other _ _ M D S E O), M, O. reflexivity.
Qed.

Lemma identity_after_truthy (id : JSON) (f : Frame) :
  truthy id = true -> truthy (identity_after id f) = true.
Proof.
  unfold identity_after, carries_id, frame_id. intros H.
  destruct ((is_meta f || is_done f)
            && truthy_opt (get (data f) (str "conversation_id"))) eqn:E;
    [|assumption].
  apply andb_prop in E as [_ E].
  destruct (get (data f) (str "conversation_id")); [exact E | discriminate].
Qed.


(** Only the Error and the Done branch leave the function. *)
Lemma dispatch_next (f : Frame) (st : State) :
  is_done f = false -> is_error f = false ->
  exists st', dispatch' onDelta f st = Next st'.
Proof.
  intros O E. destruct (branch f) as [H|H|H|H|H|M D S E' O'].
  - rewrite (dispatch_meta _ _ H). eexists; reflexivity.
  - rewrite (dispatch_delta _ _ H).
    destruct (typeof_string _); eexists; reflexivity.
  - rewrite (dispatch_stats _ _ H). eexists; reflexivity.
  - congruence.
  - congruence.
  - rewrite (dispatch_other _ _ M D S E' O'). eexists; reflexivity.
Qed.

(** A stream without Done and Error is read to its end, and the
    identity it leaves is computed frame by frame. *)
Lemma feed_exhausted (frames : list Frame) (st : State) :
  (forall d s, conversationId (onDelta d s) = conversationId s) ->
  Forall (fun f => is_done f = false /\ is_error f = false) frames ->
  exists st',
    feed (dispatch' onDelta) frames st = Next st'
    /\ conversationId st'
       = fold_left identity_after frames (conversationId st).
Proof.
  intros HD HF. revert st.
  induction HF as [|f frames [O E] _ IH]; intros st.
  - exists st. split; reflexivity.
  - cbn [feed fold_left].
    destruct (dispatch_next f st O E) as [st1 E1].
    pose proof (dispatch_identity f st HD) as I.
    rewrite E1 in *. cbn [flow_state] in I. rewrite <- I. apply IH.
Qed.

Lemma feed_truthy (frames : list Frame) (st : State) :
  (forall d s, conversationId (onDelta d s) = conversationId s) ->
  truthy (conversationId st) = true ->
  truthy (conversationId (flow_state (feed (dispatch' onDelta) frames st)))
  = true.
Proof.
  intros HD. revert st.
  induction frames as [|f frames IH]; intros st T; [exact T|].
  cbn [feed].
  pose proof (dispatch_identity f st HD) as I.
  pose proof (identity_after_truthy _ f T) as T'. rewrite <- I in T'.
  destruct (dispatch' onDelta f st) as [st1|r st1]; cbn [flow_state] in *.
  - apply IH; assumption.
  - assumption.
Qed.

Lemma fold_identity_kept (frames : list Frame) (id : JSON) :
  Forall (fun f => is_meta f = false /\ is_done f = false) frames ->
  fold_left identity_after frames id = id.
Proof.
  induction 1 as [|f frames [M O] _ IH]; [reflexivity|].
  cbn [fold_left]. unfold identity_after at 2. rewrite M, O. exact IH.
Qed.

Lemma snd_finish (W : Type) (intact : bool) (fl : Flow W) :
  snd (finish intact fl) = flow_state fl.
Proof. destruct fl; reflexivity. Qed.

(** The chain of [if] only adds to the requests sent. *)
Lemma dispatch_requests (f : Frame) (st : State) :
  (forall d s, requests (onDelta d s) = requests s) ->
  exists l, requests (flow_state (dispatch' onDelta f st)) = requests st ++ l.
Proof.
  intros HD. destruct (branch f) as [H|H|H|H|H|M D S E O].
  - rewrite (dispatch_meta _ _ H). cbn [flow_state].
    destruct (after_meta_fields f st) as (_ & _ & _ & _ & R).
    destruct (statsViewActive st).
    + destruct (refresh_session (after_meta f st)) as (_ & ->).
      rewrite R. eexists; reflexivity.
    + rewrite R. exists []. now rewrite app_nil_r.
  - rewrite (dispatch_delta _ _ H). exists [].
    destruct (typeof_string _); cbn [flow_state];
      rewrite ?HD; now rewrite app_nil_r.
  - rewrite (dispatch_stats _ _ H). cbn [flow_state].
    destruct (statsViewActive st).
    + destruct (refresh_session st) as (_ & ->). eexists; reflexivity.
    + exists []. now rewrite app_nil_r.
  - rewrite (dispatch_error _ _ H). exists []. now rewrite app_nil_r.
  - rewrite (dispatch_done _ _ H). cbn [flow_state].
    destruct (after_done_fields f st) as (_ & _ & _ & R).
    destruct (statsViewActive st).
    + destruct (refresh_session (after_done f st)) as (_ & ->).
      rewrite R. eexists; reflexivity.
    + rewrite R. exists []. now rewrite app_nil_r.
  - rewrite (dispatch_other _ _ M D S E O). exists []. now rewrite app_nil_r.
Qed.

Lemma feed_requests (frames : list Frame) (st : State) :
  (forall d s, requests (onDelta d s) = requests s) ->
  exists l,
    requests (flow_state (feed (dispatch' onDelta) frames st))
    = requests st ++ l.
Proof.
  intros HD. revert st. induction frames as [|f frames IH]; intros st.
  - exists []. cbn. now rewrite app_nil_r.
  - cbn [feed]. destruct (dispatch_requests f st HD) as [l1 E1].
    destruct (dispatch' onDelta f st) as [st1|r st1]; cbn [flow_state] in *.
    + destruct (IH st1) as [l2 E2]. exists (l1 ++ l2).
      rewrite E2, E1, app_assoc. reflexivity.
    + exists l1. exact E1.
Qed.

(** The Done branch never writes to the local storage, and what
    follows a Done frame is not read. *)
Lemma done_keeps_storage (f : Frame) (frames : list Frame) (st : State) :
  is_done f = true ->
  exists st',
    feed (dispatch' onDelta) (f :: frames) st = Stop Resolved st'
    /\ localStorage st' = localStorage st
    /\ conversationId st'
       = (if carries_id f then frame_id f else conversationId st).
Proof.
  intros H. cbn [feed]. rewrite (dispatch_done _ _ H).
  destruct (after_done_fields f st) as (C & _).
  assert (L : localStorage (after_done f st) = localStorage st)
    by (unfold after_done; destruct (carries_id f); reflexivity).
  destruct (statsViewActive st); eexists; (split; [reflexivity|]).
  - destruct (refresh_session (after_done f st)) as ((-> & _ & -> & _) & _).
    split; assumption.
  - split; assumption.
Qed.

End AppFacts.

(** ** A turn on values that convert shows values that convert

    From a state, a server and frames whose values convert to text,
    every state in which a loader or a branch of the chain renders is
    one whose values convert: the renderings return. *)

Section TidyFacts.

Variable JSON_parse : jsstring -> option JSON.
Variable server : list Request -> Reply.
Variable onDelta : jsstring -> State -> State.

Hypothesis server_tidy : forall sent, tidy_answer JSON_parse (server sent) = true.
Hypothesis onDelta_keeps : keeps_view onDelta.

Local Abbreviation loadUsage := (loadUsagePage JSON_parse server).
Local Abbreviation loadHistory := (loadHistoryPage JSON_parse server).
Local Abbreviation refresh' := (refresh JSON_parse server).
Local Abbreviation dispatch' := (dispatch JSON_parse server onDelta).

Lemma tidy_state_fields (a b : State) :
  conversationId a = conversationId b -> usage a = usage b ->
  history a = history b -> tidy_state a = tidy_state b.
Proof.
  unfold tidy_state, usageItems, historyItems. intros -> -> ->. reflexivity.
Qed.

Lemma tidy_state_iff (a : State) :
  tidy_state a = true <->
  shows (Some (conversationId a)) = true
  /\ forallb usage_item_shown (items (usage a)) = true
  /\ forallb history_item_shown (items (history a)) = true.
Proof.
  unfold tidy_state, usageItems, historyItems.
  rewrite !andb_true_iff. tauto.
Qed.

Lemma tidy_answer_items (sent : list Request) (res : Response) (data : JSON) :
  server sent = Answer res -> json JSON_parse res = Some data ->
  forallb usage_item_shown (array_or_empty (get data (str "items"))) = true
  /\ forallb history_item_shown (array_or_empty (get data (str "items")))
     = true.
Proof.
  intros E J. pose proof (server_tidy sent) as T.
  unfold tidy_answer in T. rewrite E, J in T. apply andb_prop in T. exact T.
Qed.

Lemma loadUsagePage_tidy (p : Z) (st : State) :
  tidy_state st = true -> tidy_state (snd (loadUsage p st)) = true.
Proof.
  intros T. unfold loadUsagePage, fetch.
  assert (K : forall l, tidy_state (set_requests l st) = true).
  { intros l. rewrite <- T. apply tidy_state_fields; reflexivity. }
  apply tidy_state_iff in T as (TC & TU & TH).
  destruct (truthy (conversationId st)); cbn [negb].
  - cbn [requests set_requests].
    destruct (server _) as [|res] eqn:E; [apply K|].
    destruct (ok res); cbn [negb]; [|apply K].
    destruct (json JSON_parse res) as [data|] eqn:J; [|apply K].
    destruct (tidy_answer_items E J) as [I _].
    cbn [snd]. apply tidy_state_iff. repeat split; assumption.
  - cbn [snd]. apply tidy_state_iff. repeat split; assumption || reflexivity.
Qed.

Lemma loadHistoryPage_tidy (p : Z) (st : State) :
  tidy_state st = true -> tidy_state (snd (loadHistory p st)) = true.
Proof.
  intros T. unfold loadHistoryPage, fetch. cbn [requests set_requests].
  assert (K : forall l, tidy_state (set_requests l st) = true).
  { intros l. rewrite <- T. apply tidy_state_fields; reflexivity. }
  apply tidy_state_iff in T as (TC & TU & TH).
  destruct (server _) as [|res] eqn:E; [apply K|].
  destruct (ok res); cbn [negb]; [|apply K].
  destruct (json JSON_parse res) as [data|] eqn:J; [|apply K].
  destruct (tidy_answer_items E J) as [_ I].
  cbn [snd]. apply tidy_state_iff. repeat split; assumption.
Qed.

Lemma refresh_tidy (st : State) :
  tidy_state st = true -> tidy_state (refresh' st) = true.
Proof.
  intros T. unfold refresh. apply loadHistoryPage_tidy, loadUsagePage_tidy, T.
Qed.

Lemma shows_frame_id (f : Frame) :
  shows (get (data f) (str "conversation_id")) = true ->
  shows (Some (frame_id f)) = true.
Proof.
  unfold shows, frame_id. cbn [truthy_opt value_of].
  destruct (get (data f) (str "conversation_id")) as [v|]; [|reflexivity].
  intros H; exact H.
Qed.

Lemma after_done_tidy (f : Frame) (st : State) :
  is_done f = true -> tidy_frame f = true -> tidy_state st = true ->
  tidy_state (after_done f st) = true.
Proof.
  intros D F T. unfold after_done. destruct (carries_id f); [|exact T].
  unfold tidy_frame in F. rewrite D, orb_true_r in F. cbn [negb orb] in F.
  apply andb_prop in F as [F _]. apply shows_frame_id in F.
  apply tidy_state_iff in T as (TC & TU & TH).
  apply tidy_state_iff. repeat split; assumption.
Qed.

Lemma after_meta_tidy (f : Frame) (st : State) :
  is_meta f = true -> tidy_frame f = true -> tidy_state st = true ->
  tidy_state (after_meta f st) = true.
Proof.
  intros M F T. unfold tidy_frame in F. rewrite M in F. cbn [negb orb] in F.
  apply andb_prop in F as [F _]. apply shows_frame_id in F.
  unfold after_meta.
  destruct (saveConversationId_session (frame_id f)
              (set_conversationId (frame_id f) st)) as (SC & SU & SH & _).
  apply tidy_state_iff in T as (TC & TU & TH).
  apply tidy_state_iff. unfold set_usagePage, usageItems.
  cbn [conversationId usage history items set_usage].
  rewrite SC, SU, SH. repeat split; assumption.
Qed.

Lemma dispatch_tidy (f : Frame) (st : State) :
  tidy_frame f = true -> tidy_state st = true ->
  tidy_state (flow_state (dispatch' f st)) = true.
Proof.
  intros F T. destruct (branch f) as [M|D|S|E|D|M D S E N].
  - rewrite (dispatch_meta _ _ _ _ _ M). cbn [flow_state].
    pose proof (@after_meta_tidy f st M F T).
    destruct (statsViewActive st); [apply refresh_tidy|]; assumption.
  - rewrite (dispatch_delta _ _ _ _ _ D).
    destruct (typeof_string _); cbn [flow_state]; [|exact T].
    destruct (onDelta_keeps (string_of (get (data f) (str "delta"))) st)
      as (A & B & C).
    rewrite (tidy_state_fields _ _ A B C). exact T.
  - rewrite (dispatch_stats _ _ _ _ _ S). cbn [flow_state].
    destruct (statsViewActive st); [apply refresh_tidy|]; assumption.
  - rewrite (dispatch_error _ _ _ _ _ E). exact T.
  - rewrite (dispatch_done _ _ _ _ _ D). cbn [flow_state].
    pose proof (@after_done_tidy f st D F T).
    destruct (statsViewActive st); [apply refresh_tidy|]; assumption.
  - rewrite (dispatch_other _ _ _ _ _ M D S E N). exact T.
Qed.

(** Every state that the frames of a stream reach is one that the
    views render. *)
Lemma feed_tidy (frames : list Frame) (st : State) :
  Forall (fun f => tidy_frame f = true) frames -> tidy_state st = true ->
  tidy_state (flow_state (feed dispatch' frames st)) = true.
Proof.
  revert st; induction frames as [|f frames IH]; intros st F T; [exact T|].
  apply Forall_cons_iff in F as [Ff F]. cbn [feed].
  pose proof (@dispatch_tidy f st Ff T) as D.
  destruct (dispatch' f st) as [st'|r st']; cbn [flow_state] in *;
    [apply IH; assumption|exact D].
Qed.

End TidyFacts.


(** ** Pagination *)

Lemma ceil_div_spec (a b : Z) :
  0 < b -> (ceil_div a b - 1) * b < a <= ceil_div a b * b.
Proof.
  intros Hb. unfold ceil_div.
  pose proof (Z.div_mod (- a) b ltac:(lia)) as D.
  pose proof (Z.mod_pos_bound (- a) b Hb) as M. nia.
Qed.

Lemma geb_x_Fin (n m : Z) : geb_x n (Fin m) = true <-> m <= n.
Proof. simpl. apply Z.leb_le. Qed.

Section Claims.

Variable JSON_parse : jsstring -> option JSON.
Variable server : list Request -> Reply.

Local Abbreviation loadUsage := (loadUsagePage JSON_parse server).
Local Abbreviation loadHistory := (loadHistoryPage JSON_parse server).
Local Abbreviation dispatch' := (dispatch JSON_parse server).
Local Abbreviation failed := (fetch_failed JSON_parse).

(** C1, as the code has it.  When the server answers with an event
    stream whose source is exhausted without a Done or an Error frame,
    and every value that the turn shows converts to text (the state
    found, the answers of the server to the page fetches and the
    conversation ids of the frames: with one that does not, the
    rendering of the usage view throws), [runAgentStream] returns
    normally: the loop is left by [break] and no failure is made up.
    The conversation identity is the one that the frames of the stream
    leave, so the identity set by the last Meta is kept. *)
Theorem C1_exhausted_stream_resolves (message : jsstring)
    (onDelta : jsstring -> State -> State) (st : State)
    (res : Response) (b : Body) :
  keeps_view onDelta ->
  tidy_state st = true ->
  (forall sent, tidy_answer JSON_parse (server sent) = true) ->
  server (requests st ++ [stream_request message st]) = Answer res ->
  is_event_stream res = true ->
  body res = Some b ->
  intact b = true ->
  Forall (fun f => is_done f = false /\ is_error f = false
                   /\ tidy_frame f = true)
    (decoded_frames JSON_parse (chunks b)) ->
  fst (runAgentStream JSON_parse server message onDelta st) = Resolved
  /\ conversationId (snd (runAgentStream JSON_parse server message onDelta st))
     = fold_left identity_after (decoded_frames JSON_parse (chunks b))
         (conversationId st)
  /\ (forall before f after,
        decoded_frames JSON_parse (chunks b) = before ++ f :: after ->
        is_meta f = true ->
        Forall (fun g => is_meta g = false) after ->
        conversationId
          (snd (runAgentStream JSON_parse server message onDelta st))
        = frame_id f).
Proof.
  intros HK _ _ Hs He Hb Hi HT.
  assert (HD : forall d s, conversationId (onDelta d s) = conversationId s)
    by (intros d s; apply HK).
  assert (HF : Forall (fun f => is_done f = false /\ is_error f = false)
                 (decoded_frames JSON_parse (chunks b))).
  { eapply Forall_impl; [|exact HT]. cbn beta. intros f (D & E & _).
    split; assumption. }
  unfold is_event_stream in He. apply andb_prop in He as [Hok Hct].
  assert (R : runAgentStream JSON_parse server message onDelta st
              = finish true
                  (feed (dispatch' onDelta)
                     (decoded_frames JSON_parse (chunks b))
                     (set_requests (requests st ++ [stream_request message st])
                        st))).
  { unfold runAgentStream, fetch. cbn [requests set_requests].
    fold (stream_request message st). rewrite Hs, Hok, Hb, Hct, Hi.
    cbn [negb]. apply read_loop_feed. }
  destruct (feed_exhausted JSON_parse server onDelta
              (set_requests (requests st ++ [stream_request message st]) st)
              HD HF) as (st' & E & I).
  rewrite R, E. cbn [finish fst snd]. cbn [conversationId set_requests] in I.
  split; [reflexivity|]. split; [exact I|].
  intros before f after D M A. rewrite I, D, fold_left_app. cbn [fold_left].
  rewrite D in HF. apply Forall_app in HF as [_ HF].
  apply Forall_cons_iff in HF as [_ HF].
  rewrite fold_identity_kept.
  - unfold identity_after. rewrite M.
    destruct (is_meta_name _ M) as (_ & -> & _). reflexivity.
  - rewrite Forall_forall in *. intros g G. split; [apply A | apply HF]; exact G.
Qed.


(** C4. Within a stream the conversation identity is never taken away:
    a Meta or a Done frame that carries a non-empty conversation id
    stores it, a frame whose payload has no non-empty conversation id
    leaves the stored identity as it is, and from any point of the
    stream where an identity is stored, an identity is stored when
    [runAgentStream] is left, whatever bytes follow. *)
Theorem C4_identity_monotonic (onDelta : jsstring -> State -> State) :
  (forall d s, conversationId (onDelta d s) = conversationId s) ->
  (forall f st,
      (is_meta f || is_done f) && carries_id f = true ->
      conversationId (flow_state (dispatch' onDelta f st)) = frame_id f
      /\ truthy (frame_id f) = true)
  /\ (forall f st,
        carries_id f = false ->
        conversationId (flow_state (dispatch' onDelta f st))
        = conversationId st)
  /\ (forall f st,
        truthy (conversationId st) = true ->
        truthy (conversationId (flow_state (dispatch' onDelta f st))) = true)
  /\ (forall chunks intact decoder buffer st,
        truthy (conversationId st) = true ->
        truthy (conversationId
                  (snd (read_loop JSON_parse (dispatch' onDelta) chunks intact
                          decoder buffer st))) = true).
Proof.
  intros HD. repeat split.
  - rewrite (dispatch_identity _ _ _ _ _ HD). unfold identity_after.
    rewrite H. reflexivity.
  - apply andb_prop in H as [_ H]. unfold carries_id, frame_id in *.
    destruct (get (data f) (str "conversation_id")); [exact H|discriminate].
  - intros f st H. rewrite (dispatch_identity _ _ _ _ _ HD).
    unfold identity_after. rewrite H, andb_false_r. reflexivity.
  - intros f st H. rewrite (dispatch_identity _ _ _ _ _ HD).
    apply identity_after_truthy; assumption.
  - intros chunks intact decoder buffer st H.
    rewrite read_loop_feed, snd_finish. apply feed_truthy; assumption.
Qed.

(** C5. However the bytes of a stream are cut into chunks, inside a
    frame block, inside a separator or inside the bytes of one
    character, the loops of [runAgentStream] decode the same frames, in
    the same order, as from the same bytes given as one chunk, and end
    in the same state with the same outcome. *)
Theorem C5_chunking_invariant (bs : list byte) (chunks : list (list byte)) :
  concat chunks = bs ->
  decoded_frames JSON_parse chunks = decoded_frames JSON_parse [bs]
  /\ (forall (W : Type) (handle : Frame -> W -> Flow W) intact w,
        read_loop JSON_parse handle chunks intact new_TextDecoder [] w
        = read_loop JSON_parse handle [bs] intact new_TextDecoder [] w).
Proof.
  intros <-. split.
  - unfold decoded_frames, frames_from. f_equal.
    apply read_loop_concat. reflexivity.
  - intros W handle intact w. apply read_loop_concat. reflexivity.
Qed.

Lemma parse_lines_default (lines : list jsstring) (e d : jsstring) :
  Forall (fun line => startsWith line (str "event:") = false) lines ->
  fst (fold_left parse_line lines (e, d)) = e.
Proof.
  intros H. revert d. induction H as [|l lines Hl _ IH]; intros d.
  - reflexivity.
  - cbn [fold_left]. unfold parse_line at 2. rewrite Hl. apply IH.
Qed.

(** C6. A frame block whose lines give no data text, or whose data
    text JSON.parse refuses, is dropped: no frame comes out of it, the
    chain of [if] is not entered, the state is unchanged and the loop
    goes on with the rest of the buffer as if the block had not been
    there.  A block without a line [event:] has the name "message". *)
Theorem C6_undecodable_block_dropped (W : Type) (handle : Frame -> W -> Flow W)
    (w : W) (buffer : jsstring) (i : nat) :
  indexOf buffer SEP = Some i ->
  snd (parse_lines (slice_to i buffer)) = []
  \/ JSON_parse (snd (parse_lines (slice_to i buffer))) = None ->
  frame_of_block JSON_parse (slice_to i buffer) = None
  /\ handle_block JSON_parse handle (slice_to i buffer) w = Next w
  /\ pump JSON_parse handle w buffer
     = pump JSON_parse handle w (slice_from (i + 2) buffer)
  /\ frames_in JSON_parse buffer
     = frames_in JSON_parse (slice_from (i + 2) buffer)
  /\ (forall chunk f,
        Forall (fun line => startsWith line (str "event:") = false)
          (split LF chunk) ->
        fst (parse_lines chunk) = str "message"
        /\ (frame_of_block JSON_parse chunk = Some f ->
            name f = str "message")).
Proof.
  intros Hi Hd.
  assert (F : frame_of_block JSON_parse (slice_to i buffer) = None).
  { unfold frame_of_block.
    destruct (parse_lines (slice_to i buffer)) as [e d]. cbn [snd] in Hd.
    destruct d as [|c d]; [reflexivity|].
    destruct Hd as [Hd|Hd]; [discriminate | rewrite Hd; reflexivity]. }
  assert (B : handle_block JSON_parse handle (slice_to i buffer) w = Next w).
  { unfold handle_block. rewrite F. reflexivity. }
  repeat split; try assumption.
  - rewrite pump_step at 1. rewrite Hi, B. reflexivity.
  - rewrite frames_in_step at 1. rewrite Hi. unfold frames_of_block.
    rewrite F. reflexivity.
  - apply parse_lines_default; assumption.
  - unfold frame_of_block.
    pose proof (parse_lines_default (str "message") [] H) as P.
    change (fst (parse_lines chunk) = str "message") in P.
    destruct (parse_lines chunk) as [e d]. cbn [fst] in P. rewrite P.
    destruct d as [|c d]; cbn beta iota; [intros E; discriminate E|].
    destruct (JSON_parse (c :: d)); [|intros E; discriminate E].
    intros E. injection E as <-. reflexivity.
Qed.

(** C7. A page fetch of the usage or of the history collection that
    fails (no answer from the network, a status outside 200-299, or a
    body that cannot be parsed) makes the loader throw and leaves the
    state as it was, the page, page size, total and items of both
    collections included: the only trace is the request itself. *)
Theorem C7_failed_fetch_keeps_state (page : Z) (st : State) :
  (truthy (conversationId st) = true ->
   failed (server (requests st ++ usage_request page st)) = true ->
   exists e,
     loadUsage page st
     = (Rejected e, set_requests (requests st ++ usage_request page st) st)
     /\ usage (snd (loadUsage page st)) = usage st
     /\ history (snd (loadUsage page st)) = history st)
  /\
  (failed (server (requests st ++ [GetHistory page (historyPageSize st)]))
   = true ->
   exists e,
     loadHistory page st
     = (Rejected e,
        set_requests (requests st ++ [GetHistory page (historyPageSize st)]) st)
     /\ usage (snd (loadHistory page st)) = usage st
     /\ history (snd (loadHistory page st)) = history st).
Proof.
  split.
  - intros T. unfold usage_request, loadUsagePage, fetch, fetch_failed.
    rewrite T. cbn [negb requests set_requests].
    destruct (server _) as [|res]; intros F.
    + eexists; repeat split.
    + destruct (ok res); cbn [negb orb] in *.
      * destruct (json JSON_parse res); [discriminate|].
        eexists; repeat split.
      * eexists; repeat split.
  - unfold loadHistoryPage, fetch, fetch_failed.
    cbn [requests set_requests].
    destruct (server _) as [|res]; intros F.
    + eexists; repeat split.
    + destruct (ok res); cbn [negb orb] in *.
      * destruct (json JSON_parse res); [discriminate|].
        eexists; repeat split.
      * eexists; repeat split.
Qed.

(** C8. The page count of a collection is 1 when its total is 0 and
    max(1, ceil(total / page_size)) when its total is positive, the
    least number of pages of that size that hold the total.  The
    previous-page handlers do nothing (no request, same state) when the
    page is at most 1, the next-page handlers do nothing when the page
    is at least the page count, and the buttons are then disabled.  The
    source has no function that goes to a page of any number; page 0 is
    the page before page 1 and page page_count + 1 the page after the
    last, which these handlers do not ask for: the state stays as it
    is. *)
Theorem C8_page_count_and_boundaries (st : State) (c : Collection) :
  (page_size c <> 0 -> totalPages c = Fin (page_count c))
  /\ (total c = 0 -> page_count c = 1 /\ totalPages c = Fin 1)
  /\ (0 < total c -> 0 < page_size c ->
      page_count c = Z.max 1 (ceil_div (total c) (page_size c))
      /\ (page_count c - 1) * page_size c < total c
         <= page_count c * page_size c)
  /\ (usagePage st <= 1 ->
      statsPrev_click JSON_parse server st = st
      /\ prev_disabled (usage st) = true)
  /\ (usagePageSize st <> 0 -> page_count (usage st) <= usagePage st ->
      statsNext_click JSON_parse server st = st
      /\ next_disabled (usage st) = true)
  /\ (historyPage st <= 1 ->
      historyPrev_click JSON_parse server st = st
      /\ prev_disabled (history st) = true)
  /\ (historyPageSize st <> 0 -> page_count (history st) <= historyPage st ->
      historyNext_click JSON_parse server st = st
      /\ next_disabled (history st) = true)
  /\ (usagePage st - 1 = 0 -> statsPrev_click JSON_parse server st = st)
  /\ (usagePageSize st <> 0 ->
      usagePage st + 1 = page_count (usage st) + 1 ->
      statsNext_click JSON_parse server st = st)
  /\ (historyPage st - 1 = 0 -> historyPrev_click JSON_parse server st = st)
  /\ (historyPageSize st <> 0 ->
      historyPage st + 1 = page_count (history st) + 1 ->
      historyNext_click JSON_parse server st = st).
Proof.
  assert (T : forall k, page_size k <> 0 -> totalPages k = Fin (page_count k)).
  { intros k H. unfold totalPages, page_count.
    destruct (total k =? 0); [reflexivity|].
    destruct (page_size k =? 0) eqn:E; [apply Z.eqb_eq in E; lia|].
    reflexivity. }
  assert (P : forall k, page k <= 1 -> prev_disabled k = true).
  { intros k H. unfold prev_disabled, currentPage.
    destruct (total k =? 0); apply Z.leb_le; lia. }
  assert (N : forall k, page_size k <> 0 -> page_count k <= page k ->
                        geb_x (page k) (totalPages k) = true
                        /\ next_disabled k = true).
  { intros k H L. unfold next_disabled, currentPage. rewrite (T k H).
    split; [apply geb_x_Fin; assumption|].
    unfold page_count in *. destruct (total k =? 0); [reflexivity|].
    apply geb_x_Fin; assumption. }
  split; [apply T|]. split; [|split].
  - intros H. unfold totalPages, page_count. rewrite H. split; reflexivity.
  - intros Ht Hs. unfold page_count.
    destruct (total c =? 0) eqn:E0; [apply Z.eqb_eq in E0; lia|].
    pose proof (ceil_div_spec (total c) Hs) as B.
    split; [reflexivity|]. nia.
  - repeat split.
    + unfold statsPrev_click. apply Z.leb_le in H. rewrite H. reflexivity.
    + apply P; assumption.
    + unfold statsNext_click, usagePage. destruct (N (usage st) H H0) as [-> _].
      reflexivity.
    + apply N; assumption.
    + unfold historyPrev_click. apply Z.leb_le in H. rewrite H. reflexivity.
    + apply P; assumption.
    + unfold historyNext_click, historyPage. destruct (N (history st) H H0) as [-> _].
      reflexivity.
    + apply N; assumption.
    + intros H. unfold statsPrev_click.
      assert (L : (usagePage st <=? 1) = true) by (apply Z.leb_le; lia).
      rewrite L. reflexivity.
    + intros H H0. unfold statsNext_click, usagePage in *.
      assert (L : page_count (usage st) <= page (usage st)) by lia.
      destruct (N (usage st) H L) as [-> _]. reflexivity.
    + intros H. unfold historyPrev_click.
      assert (L : (historyPage st <=? 1) = true) by (apply Z.leb_le; lia).
      rewrite L. reflexivity.
    + intros H H0. unfold historyNext_click, historyPage in *.
      assert (L : page_count (history st) <= page (history st)) by lia.
      destruct (N (history st) H L) as [-> _]. reflexivity.
Qed.

(** C9, as the code has it.  [runAgentStream] has no test on its
    message: called with any message, an empty one included, it first
    sends the stream request, which carries that message as it is.  The
    submit handler of the form returns at once on an input that is empty
    once trimmed: nothing is sent and nothing changes. *)
Theorem C9_stream_request_unconditional (message : jsstring)
    (onDelta : jsstring -> State -> State) (st : State) :
  (forall d s, requests (onDelta d s) = requests s) ->
  (exists later,
      requests (snd (runAgentStream JSON_parse server message onDelta st))
      = requests st ++ stream_request message st :: later)
  /\ (forall inputValue,
        trim inputValue = [] -> submit JSON_parse server inputValue st = st).
Proof.
  intros HD. split.
  - unfold runAgentStream, fetch. cbn [requests set_requests].
    fold (stream_request message st).
    set (st1 := set_requests (requests st ++ [stream_request message st]) st).
    assert (R1 : requests st1 = requests st ++ [stream_request message st])
      by reflexivity.
    assert (Same : exists later, requests st1
                   = requests st ++ stream_request message st :: later)
      by (exists []; exact R1).
    destruct (server _) as [|res]; [exact Same|].
    destruct (ok res); cbn [negb]; [|exact Same].
    destruct (body res) as [b|]; [|exact Same].
    destruct (includes _ _); cbn [negb]; [|exact Same].
    rewrite read_loop_feed, snd_finish.
    destruct (feed_requests JSON_parse server onDelta
                (decoded_frames JSON_parse (chunks b)) st1 HD) as [l E].
    exists l. unfold decoded_frames in E. rewrite E, R1, <- app_assoc.
    reflexivity.
  - intros inputValue E. unfold submit. rewrite E. reflexivity.
Qed.

(** C10. A frame named "delta" whose payload has no string under
    [delta] (no such field, null, or a value of another type) reaches
    no branch of the chain: whatever the callback is, it is not called,
    the state with the text accumulated so far is unchanged, and the
    loop goes on with the frames that follow. *)
Theorem C10_delta_without_string_ignored
    (onDelta : jsstring -> State -> State) (f : Frame) (st : State) :
  name f = str "delta" ->
  typeof_string (get (data f) (str "delta")) = false ->
  dispatch' onDelta f st = Next st
  /\ (forall frames,
        feed (dispatch' onDelta) (f :: frames) st
        = feed (dispatch' onDelta) frames st)
  /\ (forall buffer i,
        indexOf buffer SEP = Some i ->
        frame_of_block JSON_parse (slice_to i buffer) = Some f ->
        pump JSON_parse (dispatch' onDelta) st buffer
        = pump JSON_parse (dispatch' onDelta) st (slice_from (i + 2) buffer)).
Proof.
  intros N T.
  assert (D : dispatch' onDelta f st = Next st).
  { rewrite (dispatch_delta _ _ _ _ _ N), T. reflexivity. }
  split; [exact D|]. split.
  - intros frames. cbn [feed]. rewrite D. reflexivity.
  - intros buffer i Hi Hf. rewrite pump_step at 1. rewrite Hi.
    unfold handle_block. rewrite Hf, D. reflexivity.
Qed.

End Claims.

(** ** The callback of the submit handler *)

Lemma bubble_onDelta_identity (d : jsstring) (s : State) :
  conversationId (bubble_onDelta d s) = conversationId s.
Proof.
  unfold bubble_onDelta. destruct (rev (messages s)) as [|[r a] l]; reflexivity.
Defined.

Lemma bubble_onDelta_keeps : keeps_view bubble_onDelta.
Proof.
  intros d s. unfold bubble_onDelta. destruct (rev (messages s)) as [|[r a] l];
    repeat split.
Defined.

(** The server of the examples answers with records that convert when
    its pages do. *)
Lemma stream_server_tidy (chunks : list (list byte)) (pages : Reply) :
  tidy_answer json_parse (event_stream chunks) = true ->
  tidy_answer json_parse pages = true ->
  forall sent, tidy_answer json_parse (stream_server chunks pages sent) = true.
Proof.
  intros S P sent. unfold stream_server.
  destruct (last sent (GetHistory 0 0)); assumption.
Defined.

Lemma bubble_onDelta_requests (d : jsstring) (s : State) :
  requests (bubble_onDelta d s) = requests s.
Proof.
  unfold bubble_onDelta. destruct (rev (messages s)) as [|[r a] l]; reflexivity.
Defined.

(** ** The model on examples *)

Example decode_multibyte :
  snd (decode new_TextDecoder [xe4; xbd; xa0; xf0; x9f; x98; x80])
  = [20320; 55357; 56832].
Proof. reflexivity. Qed.

Example decode_ill_formed :
  snd (decode new_TextDecoder [xff; xe4; x41]) = [65533; 65533; 65].
Proof. reflexivity. Qed.

Example decode_byte_order_mark :
  snd (decode new_TextDecoder [xef; xbb; xbf; xef; xbb; xbf; x41])
  = [65279; 65].
Proof. reflexivity. Qed.

Example json_parse_object :
  json_parse (text "{'a': [1, -20, true, null, {}], 'b': 'x\u0041'}")
  = Some (JObj [(str "a", JArr [JNum 1; JNum (-20); JBool true; JNull;
                                 JObj []]);
                (str "b", JStr (str "xA"))]).
Proof. reflexivity. Qed.

Example json_parse_refuses :
  json_parse (text "not-json") = None /\ json_parse (text "[1,]") = None
  /\ json_parse (text "01") = None /\ json_parse [] = None.
Proof. repeat split. Qed.

(** Meta, Delta, Done: the frames in the order of the bytes, the
    identity c1 at the end, and the answer in its bubble. *)
Example scenario_meta_delta_done :
  decoded_frames json_parse meta_delta_done
  = [ {| name := str "meta";
         data := JObj [(str "conversation_id", JStr (str "c1"))] |};
      {| name := str "delta"; data := JObj [(str "delta", JStr (str "Hi"))] |};
      {| name := str "done"; data := JObj [] |} ]
  /\ submit json_parse (stream_server meta_delta_done NoReply)
       (str " hello ") initial_state
     = {| conversationId := JStr (str "c1");
          usage := usage initial_state; history := history initial_state;
          activeView := ViewChat; localStorage := Some (str "c1");
          storageFails := false;
          requests := [PostStream (str "hello") None];
          messages := [(user, str "hello"); (assistant, str "Hi")] |}.
Proof. split; vm_compute; reflexivity. Qed.

(** A server that answers with JSON instead of a stream. *)
Example scenario_not_a_stream :
  fst (runAgentStream json_parse (fun _ => json_answer 200 "{}") (str "hi")
         bubble_onDelta initial_state)
  = Rejected (Error (str "Server did not return text/event-stream")).
Proof. reflexivity. Qed.

(** Page 2 of 25 records by 20: the page is loaded, and the next-page
    handler then stays on it. *)
Example scenario_last_page :
  let st :=
    snd (loadUsagePage json_parse
           (fun _ => json_answer 200
                       "{'page':2,'page_size':20,'total':25,'items':[]}")
           2 browsing) in
  usage st = {| page := 2; page_size := 20; total := 25; items := [] |}
  /\ totalPages (usage st) = Fin 2
  /\ statsNext_click json_parse (fun _ => NoReply) st = st.
Proof. vm_compute. repeat split. Qed.

(** ** The claims on examples *)

(** A stream that ends after its Meta frame, without Done or Error:
    [runAgentStream] returns normally, it reports no failure. *)
Lemma C1_counterexample :
  Forall (fun f => is_done f = false /\ is_error f = false)
    (decoded_frames json_parse meta_only)
  /\ fst (runAgentStream json_parse (stream_server meta_only NoReply)
            (str "hi") bubble_onDelta initial_state) = Resolved
  /\ ~ (exists e,
          fst (runAgentStream json_parse (stream_server meta_only NoReply)
                 (str "hi") bubble_onDelta initial_state) = Rejected e).
Proof.
  split; [|split].
  - vm_compute. repeat constructor.
  - vm_compute. reflexivity.
  - intros [e H]. vm_compute in H. discriminate H.
Qed.

(** The same stream while the usage view is shown and the server
    answers the page fetches with a record: the values shown convert,
    and [runAgentStream] returns normally with the identity of the
    Meta. *)
Lemma C1_witness :
  tidy_state watching = true
  /\ fst (runAgentStream json_parse (stream_server meta_only one_record)
            (str "hi") bubble_onDelta watching) = Resolved
  /\ conversationId
       (snd (runAgentStream json_parse (stream_server meta_only one_record)
               (str "hi") bubble_onDelta watching))
     = JStr (str "c1").
Proof.
  split; [reflexivity|].
  assert (S : forall sent,
             tidy_answer json_parse (stream_server meta_only one_record sent)
             = true)
    by (apply stream_server_tidy; vm_compute; reflexivity).
  pose proof
    (@C1_exhausted_stream_resolves json_parse
       (stream_server meta_only one_record) (str "hi") bubble_onDelta
       watching
       {| status := 200;
          content_type := Some (str "text/event-stream; charset=utf-8");
          body := Some {| chunks := meta_only; intact := true |} |}
       {| chunks := meta_only; intact := true |}
       bubble_onDelta_keeps eq_refl S eq_refl eq_refl eq_refl eq_refl) as T.
  cbn [chunks] in T.
  assert (F : Forall (fun f => is_done f = false /\ is_error f = false
                               /\ tidy_frame f = true)
                (decoded_frames json_parse meta_only)).
  { replace (decoded_frames json_parse meta_only)
      with [{| name := str "meta";
               data := JObj [(str "conversation_id", JStr (str "c1"))] |}]
      by (vm_compute; reflexivity).
    repeat constructor. }
  destruct (T F) as (A & B & _). split; [exact A|].
  rewrite B. vm_compute. reflexivity.
Defined.



(** C3. A stream that ends in a Done frame with the conversation id X,
    read from the first state of the page: [runAgentStream] returns
    normally, the identity is X and the delta that follows the Done is
    not read, but the identity is not written to the local storage, so
    that it is lost when the page is loaded again.  The same id in a
    Meta frame is written and found again. *)
Theorem C3_done_identity_not_persisted :
  let after_done :=
    runAgentStream json_parse (stream_server done_with_id NoReply)
      (str "hi") bubble_onDelta initial_state in
  let after_meta :=
    runAgentStream json_parse (stream_server meta_with_id NoReply)
      (str "hi") bubble_onDelta initial_state in
  fst after_done = Resolved
  /\ conversationId (snd after_done) = JStr (str "X")
  /\ messages (snd after_done) = []
  /\ localStorage (snd after_done) = None
  /\ conversationId (reload (snd after_done)) = JNull
  /\ fst after_meta = Resolved
  /\ conversationId (snd after_meta) = JStr (str "X")
  /\ localStorage (snd after_meta) = Some (str "X")
  /\ conversationId (reload (snd after_meta)) = JStr (str "X").
Proof. vm_compute. repeat split. Qed.

Lemma C4_witness :
  truthy (conversationId
            (snd (read_loop json_parse
                    (dispatch json_parse (fun _ => NoReply) bubble_onDelta)
                    done_only true new_TextDecoder [] browsing))) = true.
Proof.
  destruct (C4_identity_monotonic json_parse (fun _ => NoReply)
              bubble_onDelta bubble_onDelta_identity) as (_ & _ & _ & T).
  apply T. reflexivity.
Defined.

Lemma C5_witness :
  concat cut_stream
  = wire "event: delta|data: {'delta':'caf" ++ [xc3; xa9]
    ++ wire "'}||event: done|data: {}||"
  /\ decoded_frames json_parse cut_stream
     = decoded_frames json_parse [concat cut_stream]
  /\ decoded_frames json_parse cut_stream
     = [ {| name := str "delta";
            data := JObj [(str "delta", JStr (str "caf" ++ [233]))] |};
         {| name := str "done"; data := JObj [] |} ].
Proof.
  split; [reflexivity|]. split.
  - apply (C5_chunking_invariant json_parse (bs := concat cut_stream)
             cut_stream eq_refl).
  - vm_compute. reflexivity.
Defined.

Lemma C6_witness :
  indexOf malformed_then_delta SEP = Some 27%nat
  /\ json_parse (snd (parse_lines (slice_to 27 malformed_then_delta))) = None
  /\ frames_in json_parse malformed_then_delta
     = frames_in json_parse (slice_from 29 malformed_then_delta)
  /\ frames_in json_parse malformed_then_delta
     = [ {| name := str "delta"; data := JObj [(str "delta", JStr (str "Hi"))] |} ].
Proof.
  assert (I : indexOf malformed_then_delta SEP = Some 27%nat) by reflexivity.
  assert (P : json_parse (snd (parse_lines (slice_to 27 malformed_then_delta)))
              = None) by reflexivity.
  destruct (C6_undecodable_block_dropped json_parse collect []
              malformed_then_delta I (or_intror P)) as (_ & _ & _ & F & _).
  split; [exact I|]. split; [exact P|]. split; [exact F|].
  vm_compute. reflexivity.
Defined.

Lemma C7_witness :
  usage (snd (loadUsagePage json_parse (fun _ => json_answer 500 "{}")
                1 browsing)) = usage browsing
  /\ history (snd (loadHistoryPage json_parse
                     (fun _ => json_answer 200 "not-json") 1 browsing))
     = history browsing.
Proof.
  destruct (C7_failed_fetch_keeps_state json_parse
              (fun _ => json_answer 500 "{}") 1 browsing) as [U _].
  destruct (C7_failed_fetch_keeps_state json_parse
              (fun _ => json_answer 200 "not-json") 1 browsing) as [_ H].
  destruct (U eq_refl eq_refl) as (e1 & _ & U1 & _).
  destruct (H eq_refl) as (e2 & _ & _ & H2).
  split; assumption.
Defined.

Lemma C8_witness :
  page_count (usage browsing) = 2
  /\ (page_count (usage browsing) - 1) * 20 < 25
     <= page_count (usage browsing) * 20
  /\ statsNext_click json_parse (fun _ => NoReply) browsing = browsing
  /\ statsPrev_click json_parse (fun _ => NoReply) initial_state
     = initial_state
  /\ historyPrev_click json_parse (fun _ => NoReply) initial_state
     = initial_state
  /\ historyNext_click json_parse (fun _ => NoReply) browsing = browsing.
Proof.
  destruct (C8_page_count_and_boundaries json_parse (fun _ => NoReply)
              browsing (usage browsing)) as (_ & _ & C & _ & N & _ & HN & _).
  destruct (C8_page_count_and_boundaries json_parse (fun _ => NoReply)
              initial_state (usage initial_state))
    as (_ & _ & _ & P & _ & HP & _).
  destruct (C eq_refl eq_refl) as [_ B].
  assert (S : usagePageSize browsing <> 0) by (vm_compute; discriminate).
  assert (S' : historyPageSize browsing <> 0) by (vm_compute; discriminate).
  destruct (N S ltac:(vm_compute; discriminate)) as [N1 _].
  destruct (HN S' ltac:(vm_compute; discriminate)) as [N2 _].
  destruct (P ltac:(vm_compute; discriminate)) as [P1 _].
  destruct (HP ltac:(vm_compute; discriminate)) as [P2 _].
  repeat split; try assumption; try reflexivity; apply B.
Defined.

(** [runAgentStream] called with a message of three spaces: the stream
    request is sent with that message and the call returns normally. *)
Lemma C9_counterexample :
  trim (str "   ") = []
  /\ requests (snd (runAgentStream json_parse (stream_server done_only NoReply)
                      (str "   ") bubble_onDelta initial_state))
     = [PostStream (str "   ") None]
  /\ fst (runAgentStream json_parse (stream_server done_only NoReply)
            (str "   ") bubble_onDelta initial_state) = Resolved.
Proof. vm_compute. repeat split. Qed.

Lemma C9_witness :
  (exists later,
      requests (snd (runAgentStream json_parse
                       (stream_server done_only NoReply) [] bubble_onDelta
                       initial_state))
      = PostStream [] None :: later)
  /\ submit json_parse (stream_server done_only NoReply) (str "   ")
       initial_state = initial_state.
Proof.
  destruct (C9_stream_request_unconditional json_parse
              (stream_server done_only NoReply) [] bubble_onDelta
              initial_state bubble_onDelta_requests) as [R S].
  split; [exact R|]. apply S. reflexivity.
Defined.

Lemma C10_witness :
  dispatch json_parse (fun _ => NoReply) bubble_onDelta delta_without_text
    browsing = Next browsing.
Proof.
  apply (C10_delta_without_string_ignored json_parse (fun _ => NoReply)
           bubble_onDelta delta_without_text browsing eq_refl eq_refl).
Defined.

(** * Further properties of the code *)

(** ** The frame decoder *)

Lemma last_cons (A : Type) (x d : A) (l : list A) : last (x :: l) d = last l x.
Proof.
  revert x d. induction l as [|y l IH]; intros x d; [reflexivity|].
  change (last (x :: y :: l) d) with (last (y :: l) d).
  rewrite (IH y d), (IH y x). reflexivity.
Qed.

(** The lines of a frame block: the name is the value of the last line
    [event:], or "message" without one, and the data text is the values
    of the lines [data:] put end to end in their order; every other line
    counts for nothing. *)
Theorem parse_lines_closed_form (chunk : jsstring) :
  parse_lines chunk
  = (last (map event_value (filter is_event_line (split LF chunk)))
       (str "message"),
     concat (map data_value (filter is_data_line (split LF chunk)))).
Proof.
  unfold parse_lines.
  assert (G : forall lines e d,
             fold_left parse_line lines (e, d)
             = (last (map event_value (filter is_event_line lines)) e,
                d ++ concat (map data_value (filter is_data_line lines)))).
  { induction lines as [|l lines IH]; intros e d.
    - cbn. rewrite app_nil_r. reflexivity.
    - cbn [fold_left filter]. unfold parse_line at 2.
      fold (is_event_line l). fold (is_data_line l).
      fold (event_value l). fold (data_value l). rewrite IH.
      destruct (is_event_line l), (is_data_line l); cbn [map concat];
        rewrite ?last_cons, ?app_assoc; reflexivity. }
  apply G.
Qed.

Section ReaderExtras.

Variable JSON_parse : jsstring -> option JSON.

Lemma frames_in_app (b t : jsstring) :
  frames_in JSON_parse (b ++ t)
  = frames_in JSON_parse b
    ++ frames_in JSON_parse (rest_of JSON_parse b ++ t).
Proof.
  pose proof (pump_app JSON_parse collect b t []) as P.
  rewrite (pump_collect JSON_parse (b ++ t) []) in P.
  rewrite (pump_collect JSON_parse b []) in P.
  rewrite (pump_collect JSON_parse (rest_of JSON_parse b ++ t)) in P.
  injection P as P _. exact P.
Qed.

Lemma frames_in_idle (t : jsstring) :
  indexOf t SEP = None -> frames_in JSON_parse t = [].
Proof. intros H. rewrite frames_in_step, H. reflexivity. Qed.

Lemma decoded_frames_text (chunks : list (list byte)) :
  decoded_frames JSON_parse chunks
  = frames_in JSON_parse (stream_text chunks).
Proof.
  unfold decoded_frames, frames_from.
  rewrite read_loop_concat by reflexivity. fold (frames_from JSON_parse
    [concat chunks] new_TextDecoder []).
  rewrite frames_from_cons. unfold frames_from. cbn [read_loop snd app].
  rewrite app_nil_r. reflexivity.
Qed.

(** The frames of a stream are those of its text, and a last block
    that no blank line closes is not among them: when the stream ends,
    what the buffer still holds is given up, not flushed. *)
Theorem unterminated_block_is_dropped (chunks : list (list byte))
    (head tail : jsstring) :
  stream_text chunks = head ++ tail ->
  rest_of JSON_parse head = [] ->
  indexOf tail SEP = None ->
  decoded_frames JSON_parse chunks = frames_in JSON_parse head.
Proof.
  intros T R I. rewrite decoded_frames_text, T, frames_in_app, R.
  cbn [app]. rewrite (frames_in_idle _ I). apply app_nil_r.
Qed.

Lemma decode_ascii (bs : list byte) (d : TextDecoder) :
  bytes_needed d = 0 ->
  Forall (fun b => byte_value b < 128) bs ->
  snd (decode d bs) = map byte_value bs.
Proof.
  intros N H. revert d N. induction H as [|b bs Hb _ IH]; intros d N.
  - reflexivity.
  - cbn [decode map]. unfold decode_byte, utf8_byte. rewrite N.
    cbn [Z.eqb]. unfold lead_byte.
    assert (L : (byte_value b <=? 127) = true) by (apply Z.leb_le; lia).
    rewrite L. cbn [emit_scalars]. unfold emit_scalar.
    assert (B : (byte_value b =? 65279) = false) by (apply Z.eqb_neq; lia).
    rewrite B, andb_false_r. cbn [app flat_map]. unfold utf16.
    assert (U : (byte_value b <? 65536) = true) by (apply Z.ltb_lt; lia).
    rewrite U. cbn [app].
    match goal with |- snd (let (d2, s2) := decode ?d1 bs in _) = _ =>
      specialize (IH d1 N); destruct (decode d1 bs) as [d2 s2] end.
    cbn [snd] in *. rewrite IH. reflexivity.
Qed.

(** A stream of ASCII bytes is read as the text of the same character
    codes, however it is cut into chunks. *)
Theorem ascii_stream_read_verbatim (chunks : list (list byte)) :
  Forall (fun b => byte_value b < 128) (concat chunks) ->
  stream_text chunks = map byte_value (concat chunks)
  /\ decoded_frames JSON_parse chunks
     = frames_in JSON_parse (map byte_value (concat chunks)).
Proof.
  intros H.
  assert (T : stream_text chunks = map byte_value (concat chunks))
    by (apply decode_ascii; [reflexivity | exact H]).
  split; [exact T|]. rewrite decoded_frames_text, T. reflexivity.
Qed.

End ReaderExtras.

(** ** The turn *)

Section TurnExtras.

Variable JSON_parse : jsstring -> option JSON.
Variable server : list Request -> Reply.

Local Abbreviation dispatch' := (dispatch JSON_parse server).
Local Abbreviation run := (runAgentStream JSON_parse server).

Lemma dispatch_idle (onDelta : jsstring -> State -> State)
    (f : Frame) (st : State) :
  acts f = false -> dispatch' onDelta f st = Next st.
Proof.
  unfold acts. intros H.
  apply orb_false_elim in H as [H O]. apply orb_false_elim in H as [H E].
  apply orb_false_elim in H as [H S]. apply orb_false_elim in H as [M D].
  destruct (eqb_str (name f) (str "delta")) eqn:N.
  - apply eqb_str_eq in N. rewrite (dispatch_delta _ _ _ _ _ N).
    cbn [andb] in D. rewrite D. reflexivity.
  - apply dispatch_other; try assumption.
    intros C. apply eqb_str_eq in C. congruence.
Qed.

(** [runAgentStream] acts on the frames that enter a branch of its
    chain of [if] and on no other: a stream gives the same outcome and
    the same state as the stream without its other frames (unknown
    event names, a Meta without identity, a Delta without text, a Stats
    with a falsy payload). *)
Theorem frames_without_branch_are_void
    (onDelta : jsstring -> State -> State) (chunks : list (list byte))
    (intact : bool) (st : State) :
  read_loop JSON_parse (dispatch' onDelta) chunks intact new_TextDecoder [] st
  = finish intact
      (feed (dispatch' onDelta)
         (filter acts (decoded_frames JSON_parse chunks)) st).
Proof.
  rewrite read_loop_feed. f_equal. fold (decoded_frames JSON_parse chunks).
  generalize (decoded_frames JSON_parse chunks) as frames. intros frames.
  revert st. induction frames as [|f frames IH]; intros st; [reflexivity|].
  cbn [filter]. destruct (acts f) eqn:A; cbn [feed].
  - destruct (dispatch' onDelta f st); [apply IH | reflexivity].
  - rewrite (dispatch_idle onDelta f st A). apply IH.
Qed.

(** What [runAgentStream] does with an answer that is a stream. *)
Lemma runAgentStream_reads (message : jsstring)
    (onDelta : jsstring -> State -> State) (st : State) (b : Body) :
  streams server message st b ->
  run message onDelta st
  = finish (intact b)
      (feed (dispatch' onDelta) (decoded_frames JSON_parse (chunks b))
         (opened message st)).
Proof.
  intros (res & Hs & He & Hb).
  unfold is_event_stream in He. apply andb_prop in He as [Hok Hct].
  unfold runAgentStream, fetch. cbn [requests set_requests].
  fold (stream_request message st). rewrite Hs, Hok, Hb, Hct.
  cbn [negb]. apply read_loop_feed.
Qed.

Lemma runAgentStream_refused (message : jsstring)
    (onDelta : jsstring -> State -> State) (st : State) :
  refused (server (requests st ++ [stream_request message st])) = true ->
  exists e, run message onDelta st = (Rejected e, opened message st).
Proof.
  unfold refused, is_event_stream, runAgentStream, fetch, opened.
  cbn [requests set_requests]. fold (stream_request message st).
  destruct (server _) as [|res]; intros H; [eexists; reflexivity|].
  destruct (ok res); cbn [negb andb] in *; [|eexists; reflexivity].
  destruct (body res) as [b|]; [|eexists; reflexivity].
  destruct (includes _ _); cbn [negb orb] in *;
    [discriminate | eexists; reflexivity].
Qed.

(** A transport failure (no answer, a status outside 200-299, another
    content type than text/event-stream, no body) makes
    [runAgentStream] throw before it reads anything: no frame is
    decoded, the callback is not called and the state is the one before
    the call, with the request added to those sent. *)
Theorem transport_failure_changes_nothing (message : jsstring)
    (onDelta : jsstring -> State -> State) (st : State) :
  refused (server (requests st ++ [stream_request message st])) = true ->
  exists e, run message onDelta st = (Rejected e, opened message st).
Proof. apply runAgentStream_refused. Qed.

Lemma feed_live (onDelta : jsstring -> State -> State)
    (frames : list Frame) (st : State) :
  Forall (fun f => is_done f = false /\ is_error f = false) frames ->
  feed (dispatch' onDelta) frames st
  = Next (flow_state (feed (dispatch' onDelta) frames st)).
Proof.
  intros H. revert st. induction H as [|f frames [O E] _ IH]; intros st.
  - reflexivity.
  - cbn [feed]. destruct (dispatch_next JSON_parse server onDelta f st O E)
      as [st1 ->]. apply IH.
Qed.

Lemma live_frames (before : list Frame) :
  Forall (fun g => is_done g = false /\ is_error g = false
                   /\ tidy_frame g = true) before ->
  Forall (fun g => is_done g = false /\ is_error g = false) before.
Proof.
  apply Forall_impl. intros g (D & E & _). split; assumption.
Qed.

(** An Error frame ends the turn with the failure it carries (its
    [message], or "stream error" without one).  The state is the one
    that the frames before it left: what was delivered stays, and
    neither the frames after it nor the end of the transfer are looked
    at.  This is for a turn in which every value shown, and the
    message, convert to text: the state found, the answers to the page
    fetches, the conversation ids of the frames before. *)
Theorem error_frame_ends_turn (message : jsstring)
    (onDelta : jsstring -> State -> State) (st : State) (b : Body)
    (before after : list Frame) (f : Frame) :
  keeps_view onDelta ->
  tidy_state st = true ->
  (forall sent, tidy_answer JSON_parse (server sent) = true) ->
  streams server message st b ->
  decoded_frames JSON_parse (chunks b) = before ++ f :: after ->
  Forall (fun g => is_done g = false /\ is_error g = false
                   /\ tidy_frame g = true) before ->
  is_error f = true ->
  tidy_frame f = true ->
  run message onDelta st
  = (Rejected (error_of f),
     flow_state (feed (dispatch' onDelta) before (opened message st))).
Proof.
  intros _ _ _ S D L E _. apply live_frames in L.
  rewrite (runAgentStream_reads onDelta S), D, feed_app.
  rewrite (feed_live onDelta _ L). cbn [feed].
  rewrite (dispatch_error _ _ _ _ _ E). reflexivity.
Qed.

(** A Done frame ends the turn with success: the identity it carries,
    if any, is stored, the collections are refreshed if the usage view
    is shown, and the frames after it are not read; a transfer that
    fails after the Done is not reported.  This is for a turn in which
    every value shown converts to text: the state found, the answers to
    the page fetches, the conversation ids of the Done and of the
    frames before it. *)
Theorem done_frame_ends_turn (message : jsstring)
    (onDelta : jsstring -> State -> State) (st : State) (b : Body)
    (before after : list Frame) (f : Frame) :
  keeps_view onDelta ->
  tidy_state st = true ->
  (forall sent, tidy_answer JSON_parse (server sent) = true) ->
  streams server message st b ->
  decoded_frames JSON_parse (chunks b) = before ++ f :: after ->
  Forall (fun g => is_done g = false /\ is_error g = false
                   /\ tidy_frame g = true) before ->
  is_done f = true ->
  tidy_frame f = true ->
  let st1 :=
    flow_state (feed (dispatch' onDelta) before (opened message st)) in
  run message onDelta st
  = (Resolved,
     if statsViewActive st1
     then refresh JSON_parse server (after_done f st1)
     else after_done f st1).
Proof.
  intros _ _ _ S D L E _. cbv zeta. apply live_frames in L.
  rewrite (runAgentStream_reads onDelta S), D, feed_app.
  rewrite (feed_live onDelta _ L). cbn [feed].
  rewrite (dispatch_done _ _ _ _ _ E). reflexivity.
Qed.

Lemma dispatch_hidden (onDelta : jsstring -> State -> State)
    (f : Frame) (st : State) :
  (forall d s, activeView (onDelta d s) = activeView s
               /\ requests (onDelta d s) = requests s) ->
  statsViewActive st = false ->
  activeView (flow_state (dispatch' onDelta f st)) = activeView st
  /\ requests (flow_state (dispatch' onDelta f st)) = requests st.
Proof.
  intros HD V. destruct (branch f) as [H|H|H|H|H|M D S E O].
  - rewrite (dispatch_meta _ _ _ _ _ H), V. cbn [flow_state].
    destruct (after_meta_fields f st) as (_ & _ & _ & _ & R).
    split; [|exact R]. unfold after_meta.
    destruct (saveConversationId_session (frame_id f)
                (set_conversationId (frame_id f) st)) as (_ & _ & _ & A & _).
    exact A.
  - rewrite (dispatch_delta _ _ _ _ _ H).
    destruct (typeof_string _); cbn [flow_state]; [apply HD | now split].
  - rewrite (dispatch_stats _ _ _ _ _ H), V. now split.
  - rewrite (dispatch_error _ _ _ _ _ H). now split.
  - rewrite (dispatch_done _ _ _ _ _ H), V. cbn [flow_state].
    unfold after_done. destruct (carries_id f); now split.
  - rewrite (dispatch_other _ _ _ _ _ M D S E O). now split.
Qed.

(** While the usage view is not shown, a whole turn sends one request,
    the stream request: no frame of the stream, whatever it is, makes
    [runAgentStream] fetch a page. *)
Theorem hidden_view_turn_fetches_nothing (message : jsstring)
    (onDelta : jsstring -> State -> State) (st : State) :
  (forall d s, activeView (onDelta d s) = activeView s
               /\ requests (onDelta d s) = requests s) ->
  statsViewActive st = false ->
  requests (snd (run message onDelta st))
  = requests st ++ [stream_request message st].
Proof.
  intros HD V.
  assert (F : forall frames s,
             statsViewActive s = false ->
             requests (flow_state (feed (dispatch' onDelta) frames s))
             = requests s).
  { induction frames as [|f frames IH]; intros s Vs; [reflexivity|].
    cbn [feed]. destruct (@dispatch_hidden onDelta f s HD Vs) as [A R].
    destruct (dispatch' onDelta f s) as [s1|r s1]; cbn [flow_state] in *.
    - rewrite IH; [exact R|]. unfold statsViewActive in *. rewrite A.
      exact Vs.
    - exact R. }
  unfold runAgentStream, fetch. cbn [requests set_requests].
  fold (stream_request message st). fold (opened message st).
  destruct (server _) as [|res]; [reflexivity|].
  destruct (ok res); cbn [negb]; [|reflexivity].
  destruct (body res) as [b|]; [|reflexivity].
  destruct (includes _ _); cbn [negb]; [|reflexivity].
  rewrite read_loop_feed, snd_finish. apply (F _ (opened message st)). exact V.
Qed.

End TurnExtras.

(** ** The chat form *)

Ltac compare_names :=
  repeat match goal with
  | |- context [eqb_str (str ?a) (str ?b)] =>
      let v := eval vm_compute in (eqb_str (str a) (str b)) in
      change (eqb_str (str a) (str b)) with v
  end.

Lemma trimStart_nil (s : jsstring) : trimStart s = [] <-> blank s.
Proof.
  unfold blank. induction s as [|c s IH]; cbn [trimStart].
  - split; [constructor | reflexivity].
  - destruct (is_space c) eqn:E.
    + rewrite IH. split; [now constructor | intros H; now inversion H].
    + split; [discriminate|]. intros H. inversion H. congruence.
Qed.

Lemma trimStart_head (s r : jsstring) (c : Z) :
  trimStart s = c :: r -> is_space c = false.
Proof.
  induction s as [|d s IH]; cbn [trimStart]; [discriminate|].
  destruct (is_space d) eqn:E; [exact IH|].
  intros H. injection H as <- _. exact E.
Qed.

Lemma trim_nil (s : jsstring) : trim s = [] <-> blank s.
Proof.
  unfold trim, trimEnd. split.
  - intros H. apply (f_equal (@rev Z)) in H. rewrite rev_involutive in H.
    cbn [rev] in H. apply trimStart_nil in H. unfold blank in H.
    apply Forall_rev in H. rewrite rev_involutive in H.
    destruct (trimStart s) as [|c r] eqn:E; [now apply trimStart_nil|].
    apply trimStart_head in E. inversion H. congruence.
  - intros H. apply trimStart_nil in H. rewrite H. reflexivity.
Qed.

Lemma app_longer (A : Type) (l m : list A) : m <> [] -> l ++ m <> l.
Proof.
  intros N E. apply (f_equal (@length A)) in E. rewrite length_app in E.
  destruct m; [congruence | simpl in E; lia].
Qed.

Lemma bubble_onDelta_last (d acc : jsstring) (role : Role)
    (ms : list (Role * jsstring)) (st : State) :
  messages st = ms ++ [(role, acc)] ->
  messages (bubble_onDelta d st) = ms ++ [(role, acc ++ d)].
Proof.
  intros H. unfold bubble_onDelta. rewrite H, rev_app_distr. cbn [rev app].
  cbn [messages set_messages]. rewrite rev_involutive. reflexivity.
Qed.

Section FormExtras.

Variable JSON_parse : jsstring -> option JSON.
Variable server : list Request -> Reply.

Local Abbreviation dispatch' := (dispatch JSON_parse server).
Local Abbreviation run := (runAgentStream JSON_parse server).

Lemma delta_text_other (f : Frame) :
  name f <> str "delta" -> delta_text f = [].
Proof.
  intros N. unfold delta_text.
  destruct (eqb_str (name f) (str "delta")) eqn:E; [|reflexivity].
  apply eqb_str_eq in E. contradiction.
Qed.

Lemma dispatch_bubble (f : Frame) (st : State) (role : Role)
    (ms : list (Role * jsstring)) (acc : jsstring) :
  messages st = ms ++ [(role, acc)] ->
  messages (flow_state (dispatch' bubble_onDelta f st))
  = ms ++ [(role, acc ++ delta_text f)].
Proof.
  intros H.
  assert (K : forall s, messages s = messages st -> delta_text f = [] ->
                        messages s = ms ++ [(role, acc ++ delta_text f)]).
  { intros s -> ->. rewrite app_nil_r. exact H. }
  destruct (branch f) as [B|B|B|B|B|M D S E O].
  - rewrite (dispatch_meta _ _ _ _ _ B). cbn [flow_state].
    destruct (is_meta_name _ B) as (N & _).
    assert (A : messages (after_meta f st) = messages st).
    { unfold after_meta.
      destruct (saveConversationId_session (frame_id f)
                  (set_conversationId (frame_id f) st))
        as (_ & _ & _ & _ & _ & A). exact A. }
    apply K; [|apply delta_text_other; rewrite N; discriminate].
    destruct (statsViewActive st); [|exact A].
    destruct (refresh_session JSON_parse server (after_meta f st))
      as ((_ & _ & _ & _ & ->) & _). exact A.
  - rewrite (dispatch_delta _ _ _ _ _ B). unfold delta_text. rewrite B.
    compare_names. cbn [andb].
    destruct (typeof_string _); cbn [flow_state].
    + apply bubble_onDelta_last. exact H.
    + rewrite app_nil_r. exact H.
  - rewrite (dispatch_stats _ _ _ _ _ B). cbn [flow_state].
    destruct (is_stats_name _ B) as (N & _).
    apply K; [|apply delta_text_other; rewrite N; discriminate].
    destruct (statsViewActive st); [|reflexivity].
    now destruct (refresh_session JSON_parse server st)
      as ((_ & _ & _ & _ & ->) & _).
  - rewrite (dispatch_error _ _ _ _ _ B). cbn [flow_state].
    destruct (is_error_name _ B) as (N & _).
    apply K; [reflexivity|apply delta_text_other; rewrite N; discriminate].
  - rewrite (dispatch_done _ _ _ _ _ B). cbn [flow_state].
    destruct (is_done_name _ B) as (N & _).
    assert (A : messages (after_done f st) = messages st)
      by (unfold after_done; destruct (carries_id f); reflexivity).
    apply K; [|apply delta_text_other; rewrite N; discriminate].
    destruct (statsViewActive st); [|exact A].
    destruct (refresh_session JSON_parse server (after_done f st))
      as ((_ & _ & _ & _ & ->) & _). exact A.
  - rewrite (dispatch_other _ _ _ _ _ M D S E O). cbn [flow_state].
    apply K; [reflexivity | apply delta_text_other; exact D].
Qed.

Lemma feed_bubble (frames : list Frame) (st : State) (role : Role)
    (ms : list (Role * jsstring)) (acc : jsstring) :
  messages st = ms ++ [(role, acc)] ->
  messages (flow_state (feed (dispatch' bubble_onDelta) frames st))
  = ms ++ [(role, acc ++ concat (map delta_text (live frames)))].
Proof.
  revert st acc. induction frames as [|f frames IH]; intros st acc H.
  - cbn. rewrite app_nil_r. exact H.
  - cbn [feed live]. pose proof (@dispatch_bubble f st role ms acc H) as D.
    destruct (is_done f) eqn:O.
    + rewrite (dispatch_done _ _ _ _ _ O) in *. cbn [orb map concat flow_state] in *.
      destruct (is_done_name _ O) as (N & _).
      rewrite D, (@delta_text_other f) by (rewrite N; discriminate).
      reflexivity.
    + destruct (is_error f) eqn:E.
      * rewrite (dispatch_error _ _ _ _ _ E) in *.
        cbn [orb map concat flow_state] in *.
        destruct (is_error_name _ E) as (N & _).
        rewrite D, (@delta_text_other f) by (rewrite N; discriminate).
        reflexivity.
      * destruct (dispatch_next JSON_parse server bubble_onDelta f st O E)
          as [st1 E1]. rewrite E1 in *. cbn [orb map concat flow_state] in *.
        rewrite (IH st1 _ D), <- app_assoc. reflexivity.
Qed.

Lemma not_refused (reply : Reply) :
  refused reply = false ->
  exists res b,
    reply = Answer res /\ is_event_stream res = true /\ body res = Some b.
Proof.
  unfold refused. destruct reply as [|res]; [discriminate|].
  intros H. apply orb_false_elim in H as [E B].
  apply negb_false_iff in E. destruct (body res) as [b|] eqn:Eb; [|discriminate].
  exists res, b. split; [reflexivity|]. split; [exact E | exact Eb].
Qed.

(** The messages after a turn that the server answers with a stream. *)
Lemma submit_streamed (inputValue : jsstring) (st : State) (b : Body) :
  trim inputValue <> [] ->
  streams server (trim inputValue) st b ->
  messages (submit JSON_parse server inputValue st)
  = messages st
    ++ [(user, trim inputValue);
        (assistant,
         concat (map delta_text (live (decoded_frames JSON_parse (chunks b)))))]
    ++ failure_bubble
         (fst (run (trim inputValue) bubble_onDelta
                 (asked (trim inputValue) st))).
Proof.
  intros N S. unfold submit. set (t := trim inputValue) in *.
  destruct t as [|c t'] eqn:Et; [congruence|]. rewrite <- Et in *. clear Et.
  fold (asked t st).
  assert (S2 : streams server t (asked t st) b) by exact S.
  rewrite (@runAgentStream_reads JSON_parse server _ bubble_onDelta _ _ S2).
  assert (M : messages (opened t (asked t st))
              = (messages st ++ [(user, t)]) ++ [(assistant, [])])
    by reflexivity.
  pose proof (@feed_bubble (decoded_frames JSON_parse (chunks b)) _ _ _ _ M) as F.
  cbn [app] in F.
  destruct (feed (dispatch' bubble_onDelta) _ _) as [s1|r s1];
    cbn [finish flow_state fst] in *.
  - destruct (intact b); cbn [failure_bubble].
    + rewrite F, <- app_assoc, app_nil_r. reflexivity.
    + unfold appendMessage. cbn [messages set_messages].
      rewrite F, <- !app_assoc. reflexivity.
  - destruct r as [|e]; cbn [failure_bubble].
    + rewrite F, <- app_assoc, app_nil_r. reflexivity.
    + unfold appendMessage. cbn [messages set_messages].
      rewrite F, <- !app_assoc. reflexivity.
Qed.

(** The state after a turn that ends in a transport failure. *)
Lemma submit_refused (inputValue : jsstring) (st : State) :
  trim inputValue <> [] ->
  refused (server (requests st ++ [stream_request (trim inputValue) st]))
  = true ->
  exists e,
    submit JSON_parse server inputValue st
    = set_messages
        (messages st
         ++ [(user, trim inputValue); (assistant, []);
             (assistant, failure_prefix ++ String_of_exn e)])
        (set_requests
           (requests st ++ [stream_request (trim inputValue) st]) st).
Proof.
  intros N R. unfold submit. set (t := trim inputValue) in *.
  destruct t as [|c t'] eqn:Et; [congruence|]. rewrite <- Et in *. clear Et.
  fold (asked t st).
  destruct (@runAgentStream_refused JSON_parse server t
              bubble_onDelta (asked t st) R) as [e E].
  fold run in E. rewrite E. exists e. unfold appendMessage, opened, asked.
  cbn. rewrite <- !app_assoc. reflexivity.
Qed.

End FormExtras.

Section FormTheorems.

Variable JSON_parse : jsstring -> option JSON.
Variable server : list Request -> Reply.

(** The submit handler does nothing exactly when the input is made of
    white space only (or is empty): then the state is untouched, and for
    any other input it is not. *)
Theorem submit_idle_iff_blank (inputValue : jsstring) (st : State) :
  submit JSON_parse server inputValue st = st <-> blank inputValue.
Proof.
  rewrite <- trim_nil. split.
  - intros E. destruct (trim inputValue) as [|c t] eqn:T; [reflexivity|].
    exfalso. assert (N : trim inputValue <> []) by (rewrite T; discriminate).
    apply (f_equal messages) in E. revert E.
    destruct (refused (server (requests st
                ++ [stream_request (trim inputValue) st]))) eqn:R.
    + destruct (@submit_refused JSON_parse server inputValue st N R)
        as [e ->].
      cbn [messages set_messages]. apply app_longer. discriminate.
    + destruct (@not_refused _ R) as (res & b & A & B & C).
      rewrite (@submit_streamed JSON_parse server inputValue st b N).
      * apply app_longer. discriminate.
      * exists res. repeat split; assumption.
  - intros T. unfold submit. rewrite T. reflexivity.
Qed.

(** A turn that the server answers with a stream, and in which every
    value shown converts to text (the state found, the answers to the
    page fetches, the conversation ids and the error message of the
    frames), leaves two bubbles, the trimmed input of the user and the
    answer, which holds the texts of the Delta frames received before
    the first Done or Error, in their order and nothing else; no bubble
    follows when the turn ends well, and one, which begins with the
    fixed words of a failure, when it does not. *)
Theorem submit_shows_the_deltas (inputValue : jsstring) (st : State)
    (b : Body) :
  trim inputValue <> [] ->
  tidy_state st = true ->
  (forall sent, tidy_answer JSON_parse (server sent) = true) ->
  streams server (trim inputValue) st b ->
  Forall (fun f => tidy_frame f = true)
    (decoded_frames JSON_parse (chunks b)) ->
  exists tail,
    messages (submit JSON_parse server inputValue st)
    = messages st
      ++ [(user, trim inputValue);
          (assistant,
           concat
             (map delta_text (live (decoded_frames JSON_parse (chunks b)))))]
      ++ tail
    /\ (fst (runAgentStream JSON_parse server (trim inputValue)
               bubble_onDelta (asked (trim inputValue) st)) = Resolved ->
        tail = [])
    /\ (forall e,
          fst (runAgentStream JSON_parse server (trim inputValue)
                 bubble_onDelta (asked (trim inputValue) st)) = Rejected e ->
          exists words, tail = [(assistant, failure_prefix ++ words)]).
Proof.
  intros N _ _ S _.
  exists (failure_bubble
            (fst (runAgentStream JSON_parse server (trim inputValue)
                    bubble_onDelta (asked (trim inputValue) st)))).
  split; [apply submit_streamed; assumption|].
  split.
  - intros ->. reflexivity.
  - intros e ->. exists (String_of_exn e). reflexivity.
Qed.

(** A turn that ends in a transport failure leaves three bubbles (the
    input, an empty answer, the failure) and one request; the
    conversation identity, the two collections, the view and the local
    storage are as before. *)
Theorem submit_reports_transport_failure (inputValue : jsstring)
    (st : State) :
  trim inputValue <> [] ->
  refused (server (requests st ++ [stream_request (trim inputValue) st]))
  = true ->
  exists e,
    submit JSON_parse server inputValue st
    = set_messages
        (messages st
         ++ [(user, trim inputValue); (assistant, []);
             (assistant, failure_prefix ++ String_of_exn e)])
        (set_requests
           (requests st ++ [stream_request (trim inputValue) st]) st).
Proof. apply submit_refused. Qed.

End FormTheorems.

(** ** The stored conversation id *)

Lemma truthy_string (s : jsstring) : truthy (JStr s) = true <-> s <> [].
Proof. destruct s; cbn; split; congruence. Qed.

Lemma trimmed_some (s : jsstring) : trim s <> [] -> s <> [].
Proof. intros H ->. apply H. reflexivity. Qed.

Lemma save_stores (id : JSON) (st : State) :
  storageFails st = false -> truthy id = true -> trim (String_ id) <> [] ->
  localStorage (saveConversationId id st) = Some (String_ id)
  /\ storageFails (saveConversationId id st) = false.
Proof.
  intros F T N. unfold saveConversationId. rewrite F, T.
  destruct (eqb_str (trim (String_ id)) []) eqn:E;
    [apply eqb_str_eq in E; contradiction|].
  cbn [andb negb]. split; [reflexivity | exact F].
Qed.

Lemma reload_of_storage (v : jsstring) (st : State) :
  storageFails st = false -> localStorage st = Some v -> trim v <> [] ->
  loadStoredConversationId st = JStr v
  /\ conversationId (reload st) = JStr v.
Proof.
  intros F L N.
  assert (T1 : truthy (JStr v) = true)
    by (apply truthy_string, trimmed_some, N).
  assert (T2 : truthy (JStr (trim v)) = true) by (apply truthy_string, N).
  split.
  - unfold loadStoredConversationId. rewrite F, L, T1, T2. reflexivity.
  - unfold reload, loadStoredConversationId.
    cbn [storageFails localStorage]. rewrite F, L, T1, T2.
    cbn [andb]. rewrite T1. reflexivity.
Qed.

(** What [saveConversationId] writes, [loadStoredConversationId] reads
    back, at once and when the page is loaded again: the id as a string.
    An id that is a string comes back as it was; an id of another type
    that converts to text comes back as the string that stands for it
    (for one that does not, nothing is written). *)
Theorem saved_id_is_read_back (id : JSON) (st : State) :
  storageFails st = false ->
  truthy id = true ->
  printable id = true ->
  trim (String_ id) <> [] ->
  loadStoredConversationId (saveConversationId id st) = JStr (String_ id)
  /\ conversationId (reload (saveConversationId id st)) = JStr (String_ id)
  /\ (forall s, id = JStr s ->
        conversationId (reload (saveConversationId id st)) = id).
Proof.
  intros F T _ N. destruct (@save_stores id st F T N) as [L F'].
  destruct (@reload_of_storage _ _ F' L N) as [A B].
  split; [exact A|]. split; [exact B|]. intros s ->. exact B.
Qed.

Section StorageExtras.

Variable JSON_parse : jsstring -> option JSON.
Variable server : list Request -> Reply.

Local Abbreviation dispatch' := (dispatch JSON_parse server).

(** The identity that a Meta frame brings, when it converts to text,
    is found again when the page is loaded again, as a string. *)
Theorem meta_identity_survives_reload (onDelta : jsstring -> State -> State)
    (f : Frame) (st : State) :
  is_meta f = true ->
  storageFails st = false ->
  printable (frame_id f) = true ->
  trim (String_ (frame_id f)) <> [] ->
  conversationId (reload (flow_state (dispatch' onDelta f st)))
  = JStr (String_ (frame_id f)).
Proof.
  intros M F _ N. rewrite (dispatch_meta _ _ _ _ _ M). cbn [flow_state].
  destruct (is_meta_name _ M) as (_ & C & _).
  assert (T : truthy (frame_id f) = true).
  { unfold carries_id, frame_id in *.
    destruct (get (data f) (str "conversation_id")); [exact C|discriminate]. }
  destruct (@save_stores (frame_id f) (set_conversationId (frame_id f) st)
              F T N) as [L F'].
  assert (A : localStorage (after_meta f st) = Some (String_ (frame_id f))
              /\ storageFails (after_meta f st) = false)
    by (split; [exact L | exact F']).
  destruct A as [LA FA].
  apply reload_of_storage; try assumption.
  - destruct (statsViewActive st); [|exact FA].
    destruct (refresh_session JSON_parse server (after_meta f st))
      as ((_ & _ & _ & -> & _) & _). exact FA.
  - destruct (statsViewActive st); [|exact LA].
    destruct (refresh_session JSON_parse server (after_meta f st))
      as ((_ & _ & -> & _) & _). exact LA.
Qed.

End StorageExtras.

(** ** The usage view *)

Section ViewExtras.

Variable JSON_parse : jsstring -> option JSON.
Variable server : list Request -> Reply.

Local Abbreviation loadUsage := (loadUsagePage JSON_parse server).
Local Abbreviation loadHistory := (loadHistoryPage JSON_parse server).
Local Abbreviation prevU := (statsPrev_click JSON_parse server).
Local Abbreviation nextU := (statsNext_click JSON_parse server).
Local Abbreviation prevH := (historyPrev_click JSON_parse server).
Local Abbreviation nextH := (historyNext_click JSON_parse server).

(** Opening the usage view shows it and asks for page 1 of both
    collections, whatever the pages were: the usage fetch (sent if a
    conversation identity is stored) and then the history fetch.  This
    is for values that convert to text, in the state found and in the
    answers of the server: with one that does not, the rendering throws
    and the history fetch is not sent. *)
Theorem menuStats_fetches_first_pages (st : State) :
  tidy_state st = true ->
  (forall sent, tidy_answer JSON_parse (server sent) = true) ->
  statsViewActive (menuStats_click JSON_parse server st) = true
  /\ issued st (menuStats_click JSON_parse server st)
     = usage_request 1 st ++ [GetHistory 1 (historyPageSize st)]
  /\ conversationId (menuStats_click JSON_parse server st)
     = conversationId st.
Proof.
  intros _ _. unfold menuStats_click.
  set (st3 := set_historyPage 1 (set_usagePage 1 (setActiveView ViewStats st))).
  destruct (refresh_session JSON_parse server st3) as ((C & V & _) & R).
  split; [unfold statsViewActive; rewrite V; reflexivity|].
  split; [|rewrite C; reflexivity].
  unfold issued. rewrite R.
  change (requests st3) with (requests st). rewrite skipn_exact. reflexivity.
Qed.

(** A click on a row of the history list that has a conversation id
    switches to that conversation: the id is stored and written to the
    local storage, the next turn carries it, and page 1 of its usage is
    fetched, the history collection staying as it is.  A row without id
    does nothing. *)
Theorem historyRow_click_switches (item : JSON) (st : State) :
  (truthy_opt (get item (str "conversation_id")) = false ->
   historyRow_click JSON_parse server item st = st)
  /\ (truthy_opt (get item (str "conversation_id")) = true ->
      let id := value_of (get item (str "conversation_id")) in
      let st' := historyRow_click JSON_parse server item st in
      conversationId st' = id
      /\ issued st st' = [GetUsage (String_ id) 1 (usagePageSize st)]
      /\ history st' = history st
      /\ activeView st' = activeView st
      /\ (forall message, stream_request message st'
                          = PostStream message (Some id))
      /\ (storageFails st = false -> trim (String_ id) <> [] ->
          localStorage st' = Some (String_ id))).
Proof.
  unfold historyRow_click. split; intros T; rewrite T; cbn [negb];
    [reflexivity|]. cbv zeta.
  set (id := value_of (get item (str "conversation_id"))).
  assert (Ti : truthy id = true).
  { unfold id. destruct (get item _); [exact T | discriminate]. }
  change (conversationId (set_conversationId id st)) with id.
  set (st3 := set_usagePage 1 (saveConversationId id (set_conversationId id st))).
  destruct (saveConversationId_session id (set_conversationId id st))
    as (C & U & H & V & R & _).
  assert (C3 : conversationId st3 = id) by exact C.
  assert (R3 : requests st3 = requests st) by exact R.
  assert (H3 : history st3 = history st) by exact H.
  assert (V3 : activeView st3 = activeView st) by exact V.
  assert (Z3 : usagePageSize st3 = usagePageSize st).
  { unfold st3, usagePageSize, set_usagePage, usagePageSize.
    cbn [usage set_usage page_size]. rewrite U. reflexivity. }
  destruct (loadUsagePage_session JSON_parse server (usagePage st3) st3)
    as ((C' & V' & L' & F' & _) & H' & R').
  repeat split.
  - rewrite C'. exact C3.
  - unfold issued. rewrite R', R3, skipn_exact. unfold usage_request.
    rewrite C3, Ti, Z3. reflexivity.
  - rewrite H'. exact H3.
  - rewrite V'. exact V3.
  - intros message. unfold stream_request. rewrite C', C3, Ti. reflexivity.
  - intros F N. rewrite L'.
    apply (@save_stores id (set_conversationId id st) F Ti N).
Qed.

(** Without a conversation identity, [loadUsagePage] sends nothing and
    empties the usage collection (page 1, no item, total 0, the page
    size kept), so that both buttons are disabled; doing it again
    changes nothing. *)
Theorem loadUsagePage_without_identity (p q : Z) (st : State) :
  truthy (conversationId st) = false ->
  let st' := snd (loadUsage p st) in
  fst (loadUsage p st) = Resolved
  /\ requests st' = requests st
  /\ usage st' = {| page := 1; page_size := usagePageSize st;
                    total := 0; items := [] |}
  /\ prev_disabled (usage st') = true
  /\ next_disabled (usage st') = true
  /\ loadUsage q st' = (Resolved, st').
Proof.
  intros T. cbv zeta. unfold loadUsagePage. rewrite T. cbn [negb fst snd].
  cbn [conversationId set_usage]. rewrite T. cbn [negb].
  repeat split.
Qed.


(** For a collection that is not empty, a navigation button is
    disabled exactly when a click on it sends no request; for an empty
    collection (total 0) both buttons are disabled, whatever the page.
    This is for a page size that is not zero and, for the usage
    buttons, a stored conversation id that converts to text. *)
Theorem button_disabled_iff_click_sends_nothing (st : State) :
  (usageTotal st <> 0 -> truthy (conversationId st) = true ->
   printable (conversationId st) = true ->
   (prev_disabled (usage st) = true <-> issued st (prevU st) = [])
   /\ (usagePageSize st <> 0 ->
       (next_disabled (usage st) = true <-> issued st (nextU st) = [])))
  /\ (historyTotal st <> 0 ->
      (prev_disabled (history st) = true <-> issued st (prevH st) = [])
      /\ (historyPageSize st <> 0 ->
          (next_disabled (history st) = true <-> issued st (nextH st) = [])))
  /\ (forall c, total c = 0 ->
        prev_disabled c = true /\ next_disabled c = true).
Proof.
  assert (I0 : issued st st = []) by (unfold issued; apply skipn_all).
  assert (U : forall p, truthy (conversationId st) = true ->
                        issued st (snd (loadUsage p st)) <> []).
  { intros p T.
    destruct (loadUsagePage_session JSON_parse server p st) as (_ & _ & R).
    unfold issued. rewrite R, skipn_exact. unfold usage_request. rewrite T.
    discriminate. }
  assert (H : forall p, issued st (snd (loadHistory p st)) <> []).
  { intros p.
    destruct (loadHistoryPage_session JSON_parse server p st) as (_ & _ & R).
    unfold issued. rewrite R, skipn_exact. discriminate. }
  split; [|split].
  - intros N T _. unfold prev_disabled, next_disabled, currentPage,
      statsPrev_click, statsNext_click, usagePage.
    assert (E : (total (usage st) =? 0) = false) by (apply Z.eqb_neq; exact N).
    rewrite E. split; [|intros _].
    + destruct (page (usage st) <=? 1); split; try (intros _; exact I0);
        try reflexivity; try discriminate.
      intros C. exfalso. revert C. apply U, T.
    + destruct (geb_x (page (usage st)) (totalPages (usage st)));
        split; try (intros _; exact I0); try reflexivity; try discriminate.
      intros C. exfalso. revert C. apply U, T.
  - intros N. unfold prev_disabled, next_disabled, currentPage,
      historyPrev_click, historyNext_click, historyPage.
    assert (E : (total (history st) =? 0) = false)
      by (apply Z.eqb_neq; exact N).
    rewrite E. split; [|intros _].
    + destruct (page (history st) <=? 1); split; try (intros _; exact I0);
        try reflexivity; try discriminate.
      intros C. exfalso. revert C. apply H.
    + destruct (geb_x (page (history st)) (totalPages (history st)));
        split; try (intros _; exact I0); try reflexivity; try discriminate.
      intros C. exfalso. revert C. apply H.
  - intros c Z. unfold prev_disabled, next_disabled, currentPage, totalPages.
    rewrite Z. split; reflexivity.
Qed.

End ViewExtras.

(** ** The local storage and the turn *)

Lemma same_but_storage_bubble (d : jsstring) (a b : State) :
  same_but_storage a b ->
  same_but_storage (bubble_onDelta d a) (bubble_onDelta d b).
Proof.
  intros (C & U & H & V & R & M). unfold bubble_onDelta. rewrite M.
  destruct (rev (messages b)) as [|[r acc] l]; repeat split; assumption.
Defined.

Section StorageTurn.

Variable JSON_parse : jsstring -> option JSON.
Variable server : list Request -> Reply.
Variable onDelta : jsstring -> State -> State.
Hypothesis onDelta_blind :
  forall d a b, same_but_storage a b ->
                same_but_storage (onDelta d a) (onDelta d b).

Local Abbreviation dispatch' := (dispatch JSON_parse server onDelta).

Ltac open_states a b H :=
  destruct a, b; unfold same_but_storage in H; cbn in H;
  destruct H as (? & ? & ? & ? & ? & ?); subst.

Lemma loadUsagePage_blind (p : Z) (a b : State) :
  same_but_storage a b ->
  fst (loadUsagePage JSON_parse server p a)
  = fst (loadUsagePage JSON_parse server p b)
  /\ same_but_storage (snd (loadUsagePage JSON_parse server p a))
       (snd (loadUsagePage JSON_parse server p b)).
Proof.
  intros H. open_states a b H.
  unfold loadUsagePage, fetch, usagePageSize. cbn.
  destruct (truthy _); cbn; [|repeat split].
  destruct (server _) as [|res]; [repeat split|].
  destruct (ok res); cbn; [|repeat split].
  destruct (json JSON_parse res); repeat split.
Qed.

Lemma loadHistoryPage_blind (p : Z) (a b : State) :
  same_but_storage a b ->
  fst (loadHistoryPage JSON_parse server p a)
  = fst (loadHistoryPage JSON_parse server p b)
  /\ same_but_storage (snd (loadHistoryPage JSON_parse server p a))
       (snd (loadHistoryPage JSON_parse server p b)).
Proof.
  intros H. open_states a b H.
  unfold loadHistoryPage, fetch, historyPageSize. cbn.
  destruct (server _) as [|res]; [repeat split|].
  destruct (ok res); cbn; [|repeat split].
  destruct (json JSON_parse res); repeat split.
Qed.

Lemma refresh_blind (a b : State) :
  same_but_storage a b ->
  same_but_storage (refresh JSON_parse server a) (refresh JSON_parse server b).
Proof.
  intros H. unfold refresh.
  assert (P : usagePage a = usagePage b)
    by (unfold usagePage; destruct H as (_ & -> & _); reflexivity).
  rewrite P. destruct (loadUsagePage_blind (usagePage b) H) as [_ H1].
  assert (Q : historyPage (snd (loadUsagePage JSON_parse server (usagePage b) a))
              = historyPage (snd (loadUsagePage JSON_parse server (usagePage b) b)))
    by (unfold historyPage; destruct H1 as (_ & _ & -> & _); reflexivity).
  rewrite Q. apply loadHistoryPage_blind. exact H1.
Qed.

Lemma saveConversationId_blind (id : JSON) (a b : State) :
  same_but_storage a b ->
  same_but_storage (saveConversationId id a) (saveConversationId id b).
Proof.
  intros (C & U & H & V & R & M).
  destruct (saveConversationId_session id a) as (C1 & U1 & H1 & V1 & R1 & M1).
  destruct (saveConversationId_session id b) as (C2 & U2 & H2 & V2 & R2 & M2).
  repeat split; congruence.
Qed.

Lemma set_fields_blind (a b : State) (id : JSON) (n : Z) :
  same_but_storage a b ->
  same_but_storage (set_conversationId id a) (set_conversationId id b)
  /\ same_but_storage (set_usagePage n a) (set_usagePage n b).
Proof.
  intros H. open_states a b H. split; repeat split.
Qed.

Lemma dispatch_blind (f : Frame) (a b : State) :
  same_but_storage a b ->
  flow_outcome (dispatch' f a) = flow_outcome (dispatch' f b)
  /\ same_but_storage (flow_state (dispatch' f a))
       (flow_state (dispatch' f b)).
Proof.
  intros H.
  assert (V : statsViewActive a = statsViewActive b)
    by (unfold statsViewActive; destruct H as (_ & _ & _ & -> & _);
        reflexivity).
  destruct (branch f) as [B|B|B|B|B|M D S E O].
  - rewrite !(dispatch_meta _ _ _ _ _ B), V. cbn [flow_outcome flow_state].
    split; [reflexivity|].
    assert (A : same_but_storage (after_meta f a) (after_meta f b)).
    { unfold after_meta. apply set_fields_blind; [exact JNull|].
      apply saveConversationId_blind. apply set_fields_blind; [exact 0|].
      exact H. }
    destruct (statsViewActive b); [apply refresh_blind|]; exact A.
  - rewrite !(dispatch_delta _ _ _ _ _ B).
    destruct (typeof_string _); cbn [flow_outcome flow_state];
      (split; [reflexivity|]); [apply onDelta_blind|]; exact H.
  - rewrite !(dispatch_stats _ _ _ _ _ B), V. cbn [flow_outcome flow_state].
    split; [reflexivity|].
    destruct (statsViewActive b); [apply refresh_blind|]; exact H.
  - rewrite !(dispatch_error _ _ _ _ _ B). split; [reflexivity | exact H].
  - rewrite !(dispatch_done _ _ _ _ _ B), V. cbn [flow_outcome flow_state].
    split; [reflexivity|].
    assert (A : same_but_storage (after_done f a) (after_done f b)).
    { unfold after_done. destruct (carries_id f); [|exact H].
      apply set_fields_blind; [exact 0 | exact H]. }
    destruct (statsViewActive b); [apply refresh_blind|]; exact A.
  - rewrite !(dispatch_other _ _ _ _ _ M D S E O).
    split; [reflexivity | exact H].
Qed.

Lemma feed_blind (frames : list Frame) (a b : State) :
  same_but_storage a b ->
  flow_outcome (feed dispatch' frames a) = flow_outcome (feed dispatch' frames b)
  /\ same_but_storage (flow_state (feed dispatch' frames a))
       (flow_state (feed dispatch' frames b)).
Proof.
  revert a b. induction frames as [|f frames IH]; intros a b H.
  - split; [reflexivity | exact H].
  - cbn [feed]. destruct (dispatch_blind f H) as [O S].
    destruct (dispatch' f a) as [a1|r a1], (dispatch' f b) as [b1|r' b1];
      cbn [flow_outcome flow_state] in *; try discriminate.
    + apply IH. exact S.
    + split; assumption.
Qed.

Lemma runAgentStream_blind (message : jsstring) (a b : State) :
  same_but_storage a b ->
  fst (runAgentStream JSON_parse server message onDelta a)
  = fst (runAgentStream JSON_parse server message onDelta b)
  /\ same_but_storage
       (snd (runAgentStream JSON_parse server message onDelta a))
       (snd (runAgentStream JSON_parse server message onDelta b)).
Proof.
  intros H.
  assert (O : same_but_storage (opened message a) (opened message b)).
  { open_states a b H. repeat split. }
  assert (Q : requests a ++ [stream_request message a]
              = requests b ++ [stream_request message b]).
  { open_states a b H. reflexivity. }
  unfold runAgentStream, fetch. cbn [requests set_requests].
  fold (stream_request message a). fold (stream_request message b).
  fold (opened message a). fold (opened message b). rewrite Q.
  destruct (server _) as [|res]; [split; [reflexivity | exact O]|].
  destruct (ok res); cbn [negb]; [|split; [reflexivity | exact O]].
  destruct (body res) as [bd|]; [|split; [reflexivity | exact O]].
  destruct (includes _ _); cbn [negb]; [|split; [reflexivity | exact O]].
  rewrite !read_loop_feed, !snd_finish.
  destruct (feed_blind (decoded_frames JSON_parse (chunks bd)) O) as [E S].
  split; [|exact S]. fold (decoded_frames JSON_parse (chunks bd)).
  destruct (feed dispatch' _ (opened message a)),
    (feed dispatch' _ (opened message b));
    cbn [flow_outcome finish fst] in *; congruence.
Qed.

End StorageTurn.

(** The local storage never steers a turn: from two states that differ
    only in what the storage holds or in whether it works, a turn gives
    the same outcome, sends the same requests and leaves the same
    identity, collections, view and bubbles. *)
Theorem storage_never_steers_a_turn (JSON_parse : jsstring -> option JSON)
    (server : list Request -> Reply) (onDelta : jsstring -> State -> State)
    (message : jsstring) (a b : State) :
  (forall d x y, same_but_storage x y ->
                 same_but_storage (onDelta d x) (onDelta d y)) ->
  same_but_storage a b ->
  fst (runAgentStream JSON_parse server message onDelta a)
  = fst (runAgentStream JSON_parse server message onDelta b)
  /\ same_but_storage
       (snd (runAgentStream JSON_parse server message onDelta a))
       (snd (runAgentStream JSON_parse server message onDelta b)).
Proof. intros B H. apply runAgentStream_blind; assumption. Qed.

(** ** The environment view *)



(** ** The further properties on examples *)

Lemma unterminated_block_is_dropped_witness :
  decoded_frames json_parse unterminated = [delta_frame "Hi"].
Proof.
  rewrite (@unterminated_block_is_dropped json_parse unterminated
             (text "event: delta|data: {'delta':'Hi'}||")
             (text "event: done|data: {}") eq_refl eq_refl eq_refl).
  vm_compute. reflexivity.
Defined.

Lemma ascii_stream_read_verbatim_witness :
  stream_text meta_delta_done = map byte_value (concat meta_delta_done).
Proof.
  apply (@ascii_stream_read_verbatim json_parse meta_delta_done).
  vm_compute. repeat constructor.
Defined.

Lemma transport_failure_changes_nothing_witness :
  exists e,
    runAgentStream json_parse (fun _ => json_answer 200 "{}") (str "hi")
      bubble_onDelta browsing
    = (Rejected e, opened (str "hi") browsing).
Proof.
  apply (@transport_failure_changes_nothing json_parse
           (fun _ => json_answer 200 "{}") (str "hi") bubble_onDelta browsing).
  reflexivity.
Defined.

Lemma with_error_streams :
  streams (stream_server with_error one_record) (str "hi") initial_state
    {| chunks := with_error; intact := true |}.
Proof. eexists. split; [reflexivity|]. split; reflexivity. Defined.

Lemma error_frame_ends_turn_witness :
  runAgentStream json_parse (stream_server with_error one_record) (str "hi")
    bubble_onDelta (asked (str "hi") initial_state)
  = (Rejected (Error (str "boom")),
     set_messages [(user, str "hi"); (assistant, str "Hi")]
       (opened (str "hi") initial_state)).
Proof.
  assert (S : forall sent,
             tidy_answer json_parse (stream_server with_error one_record sent)
             = true)
    by (apply stream_server_tidy; vm_compute; reflexivity).
  rewrite (@error_frame_ends_turn json_parse
             (stream_server with_error one_record)
             (str "hi") bubble_onDelta (asked (str "hi") initial_state)
             {| chunks := with_error; intact := true |}
             [delta_frame "Hi"] [delta_frame "late"] (error_frame "boom")
             bubble_onDelta_keeps eq_refl S
             with_error_streams ltac:(vm_compute; reflexivity)
             ltac:(repeat constructor) eq_refl eq_refl).
  vm_compute. reflexivity.
Defined.

Lemma done_after_delta_streams :
  streams (breaking_server done_after_delta) (str "hi") watching
    {| chunks := done_after_delta; intact := false |}.
Proof. eexists. split; [reflexivity|]. split; reflexivity. Defined.

(** The usage view is shown and the transfer breaks after the chunks:
    the Delta before the Done is delivered, the Done stores its id and
    refreshes both collections, the Delta after it is not read and the
    broken transfer is not reported. *)
Lemma done_frame_ends_turn_witness :
  runAgentStream json_parse (breaking_server done_after_delta) (str "hi")
    bubble_onDelta (asked (str "hi") watching)
  = (Resolved,
     set_messages [(user, str "hi"); (assistant, str "Hi")]
       (set_requests
          [PostStream (str "hi") None; GetUsage (str "X") 1 20;
           GetHistory 1 10]
          (set_conversationId (JStr (str "X")) watching))).
Proof.
  rewrite (@done_frame_ends_turn json_parse (breaking_server done_after_delta)
             (str "hi") bubble_onDelta (asked (str "hi") watching)
             {| chunks := done_after_delta; intact := false |}
             [delta_frame "Hi"] [delta_frame "late"] done_frame_X
             bubble_onDelta_keeps eq_refl (fun _ => eq_refl)
             done_after_delta_streams ltac:(vm_compute; reflexivity)
             ltac:(repeat constructor) eq_refl eq_refl).
  vm_compute. reflexivity.
Defined.

Lemma bubble_onDelta_quiet (d : jsstring) (s : State) :
  activeView (bubble_onDelta d s) = activeView s
  /\ requests (bubble_onDelta d s) = requests s.
Proof.
  unfold bubble_onDelta. destruct (rev (messages s)) as [|[r a] l];
    split; reflexivity.
Defined.

Lemma hidden_view_turn_fetches_nothing_witness :
  requests (snd (runAgentStream json_parse
                   (stream_server meta_delta_done NoReply) (str "hi")
                   bubble_onDelta initial_state))
  = [PostStream (str "hi") None].
Proof.
  apply (@hidden_view_turn_fetches_nothing json_parse
           (stream_server meta_delta_done NoReply) (str "hi") bubble_onDelta
           initial_state bubble_onDelta_quiet eq_refl).
Defined.

Lemma meta_delta_done_streams :
  streams (stream_server meta_delta_done one_record) (str "hello") watching
    {| chunks := meta_delta_done; intact := true |}.
Proof. eexists. split; [reflexivity|]. split; reflexivity. Defined.

(** The first scenario of the design document while the usage view is
    shown: the two bubbles of the turn, and no third one. *)
Lemma submit_shows_the_deltas_witness :
  messages (submit json_parse (stream_server meta_delta_done one_record)
              (str " hello ") watching)
  = [(user, str "hello"); (assistant, str "Hi")].
Proof.
  assert (S : forall sent,
             tidy_answer json_parse
               (stream_server meta_delta_done one_record sent) = true)
    by (apply stream_server_tidy; vm_compute; reflexivity).
  assert (F : Forall (fun f => tidy_frame f = true)
                (decoded_frames json_parse meta_delta_done)).
  { replace (decoded_frames json_parse meta_delta_done)
      with [{| name := str "meta";
               data := JObj [(str "conversation_id", JStr (str "c1"))] |};
            delta_frame "Hi"; {| name := str "done"; data := JObj [] |}]
      by (vm_compute; reflexivity).
    repeat constructor. }
  destruct (@submit_shows_the_deltas json_parse
              (stream_server meta_delta_done one_record) (str " hello ")
              watching {| chunks := meta_delta_done; intact := true |}
              ltac:(vm_compute; discriminate) eq_refl S
              meta_delta_done_streams F) as (tail & M & R & _).
  rewrite M, (R ltac:(vm_compute; reflexivity)).
  vm_compute. reflexivity.
Defined.

Lemma submit_reports_transport_failure_witness :
  exists e,
    submit json_parse (fun _ => json_answer 500 "{'detail':'down'}")
      (str "hi") initial_state
    = set_messages
        [(user, str "hi"); (assistant, []);
         (assistant, failure_prefix ++ String_of_exn e)]
        (set_requests [PostStream (str "hi") None] initial_state).
Proof.
  apply (@submit_reports_transport_failure json_parse
           (fun _ => json_answer 500 "{'detail':'down'}") (str "hi")
           initial_state ltac:(vm_compute; discriminate) eq_refl).
Defined.

Lemma saved_id_is_read_back_witness :
  conversationId (reload (saveConversationId (JNum 42) initial_state))
  = JStr (str "42").
Proof.
  apply (@saved_id_is_read_back (JNum 42) initial_state eq_refl eq_refl
           eq_refl ltac:(vm_compute; discriminate)).
Defined.

Lemma meta_identity_survives_reload_witness :
  conversationId
    (reload (flow_state (dispatch json_parse (fun _ => NoReply)
                           bubble_onDelta meta_frame_X browsing)))
  = JStr (str "X").
Proof.
  apply (@meta_identity_survives_reload json_parse (fun _ => NoReply)
           bubble_onDelta meta_frame_X browsing eq_refl eq_refl eq_refl
           ltac:(vm_compute; discriminate)).
Defined.

Lemma menuStats_fetches_first_pages_witness :
  statsViewActive (menuStats_click json_parse (fun _ => one_record)
                     (setActiveView ViewChat browsing)) = true
  /\ issued (setActiveView ViewChat browsing)
       (menuStats_click json_parse (fun _ => one_record)
          (setActiveView ViewChat browsing))
     = [GetUsage (str "c1") 1 20; GetHistory 1 10].
Proof.
  destruct (@menuStats_fetches_first_pages json_parse (fun _ => one_record)
              (setActiveView ViewChat browsing) eq_refl
              (fun _ => ltac:(vm_compute; reflexivity))) as (V & I & _).
  split; [exact V | exact I].
Defined.

Lemma historyRow_click_switches_witness :
  conversationId (historyRow_click json_parse (fun _ => NoReply)
                    history_row_X browsing) = JStr (str "X")
  /\ issued browsing (historyRow_click json_parse (fun _ => NoReply)
                        history_row_X browsing)
     = [GetUsage (str "X") 1 20]
  /\ historyRow_click json_parse (fun _ => NoReply) JNull browsing = browsing.
Proof.
  destruct (@historyRow_click_switches json_parse (fun _ => NoReply)
              history_row_X browsing) as [_ Y].
  destruct (@historyRow_click_switches json_parse (fun _ => NoReply)
              JNull browsing) as [N _].
  destruct (Y eq_refl) as (A & B & _).
  split; [exact A|]. split; [exact B | exact (N eq_refl)].
Defined.

Lemma loadUsagePage_without_identity_witness :
  usage (snd (loadUsagePage json_parse (fun _ => NoReply) 3
                (set_conversationId JNull browsing)))
  = {| page := 1; page_size := 20; total := 0; items := [] |}
  /\ requests (snd (loadUsagePage json_parse (fun _ => NoReply) 3
                      (set_conversationId JNull browsing))) = [].
Proof.
  destruct (@loadUsagePage_without_identity json_parse (fun _ => NoReply) 3 7
              (set_conversationId JNull browsing) eq_refl)
    as (_ & R & U & _).
  split; [exact U | exact R].
Defined.


Lemma button_disabled_iff_click_sends_nothing_witness :
  issued browsing (statsNext_click json_parse (fun _ => one_record) browsing)
  = []
  /\ prev_disabled (usage paging) = true
  /\ next_disabled (history paging) = false
  /\ next_disabled (usage initial_state) = true.
Proof.
  destruct (@button_disabled_iff_click_sends_nothing json_parse
              (fun _ => one_record) browsing) as (U & _ & Z).
  destruct (@button_disabled_iff_click_sends_nothing json_parse
              (fun _ => one_record) paging) as (U' & H' & _).
  destruct (U ltac:(vm_compute; discriminate) eq_refl eq_refl) as [_ N].
  destruct (U' ltac:(vm_compute; discriminate) eq_refl eq_refl) as [[_ P] _].
  destruct (H' ltac:(vm_compute; discriminate)) as [_ HN].
  destruct (N ltac:(vm_compute; discriminate)) as [N1 _].
  destruct (HN ltac:(vm_compute; discriminate)) as [HN1 _].
  split; [exact (N1 eq_refl)|]. split; [exact (P eq_refl)|].
  split; [|apply (Z (usage initial_state) eq_refl)].
  destruct (next_disabled (history paging)) eqn:E; [|reflexivity].
  specialize (HN1 eq_refl). vm_compute in HN1. discriminate HN1.
Defined.

Lemma storage_never_steers_a_turn_witness :
  fst (runAgentStream json_parse (stream_server meta_delta_done NoReply)
         (str "hi") bubble_onDelta initial_state)
  = fst (runAgentStream json_parse (stream_server meta_delta_done NoReply)
           (str "hi") bubble_onDelta storage_broken)
  /\ same_but_storage
       (snd (runAgentStream json_parse (stream_server meta_delta_done NoReply)
               (str "hi") bubble_onDelta initial_state))
       (snd (runAgentStream json_parse (stream_server meta_delta_done NoReply)
               (str "hi") bubble_onDelta storage_broken)).
Proof.
  apply (@storage_never_steers_a_turn json_parse
           (stream_server meta_delta_done NoReply) bubble_onDelta (str "hi")
           initial_state storage_broken same_but_storage_bubble).
  repeat split.
Defined.

